(** * Hirata synchro-beam kick of [beambeam3d.h]

    A shallow embedding of [synchrobeam_kick] and of
    [BeamBeamBiGaussian3D_track_local_particle]
    (src/xfields/beam_elements/beambeam_src/beambeam3d.h).

    Arithmetic.  The C code computes on [double]; here every [double] is a
    real number of [R] and [+ - * /] are the exact field operations, written
    in the operand order of the source.  Rounding, infinities and NaN are
    outside this model; [sqrt] and [hypot] are the real square root and
    Euclidean norm.  The integer [do_beamstrahlung] (int64_t), the slice
    index and the slice count (int) are integers of [Z].

    Memory.  The element [el] is read-only: it is a record, and each
    generated getter [BeamBeamBiGaussian3DData_get_f(el)] is the projection
    [f el].  The per-slice arrays are read through
    [BeamBeamBiGaussian3DData_get_slices_other_beam_f(el, i)], modelled as
    [f (slices_other_beam el i)].  The six doubles that the kick receives by
    pointer are a record [Coords] taken and returned by value.  The particle
    [part] and the record buffer are mutated by the callees; they are passed
    through every call explicitly. *)

From Stdlib Require Import Reals ZArith List Lra Lia Bool.
Import ListNotations.

Open Scope R_scope.

(** ** Data model *)

(** One longitudinal slice of the strong beam: entry [i] of each of the
    [slices_other_beam_*] arrays of the element. *)
Record Slice : Type := mkSlice {
  Sigma_11_star : R;
  Sigma_12_star : R;
  Sigma_13_star : R;
  Sigma_14_star : R;
  Sigma_22_star : R;
  Sigma_23_star : R;
  Sigma_24_star : R;
  Sigma_33_star : R;
  Sigma_34_star : R;
  Sigma_44_star : R;
  num_particles : R;
  num_macroparticles : R;
  x_center_star : R;
  y_center_star : R;
  zeta_center_star : R;
  zeta_bin_width_star : R
}.

(** The beam-beam element, [BeamBeamBiGaussian3DData]. *)
Record BeamBeamBiGaussian3DData : Type := mkEl {
  _sin_phi : R;
  _cos_phi : R;
  _tan_phi : R;
  _sin_alpha : R;
  _cos_alpha : R;
  num_slices_other_beam : Z;
  slices_other_beam : Z -> Slice;
  ref_shift_x : R;
  ref_shift_px : R;
  ref_shift_y : R;
  ref_shift_py : R;
  ref_shift_zeta : R;
  ref_shift_pzeta : R;
  other_beam_shift_x : R;
  other_beam_shift_px : R;
  other_beam_shift_y : R;
  other_beam_shift_py : R;
  other_beam_shift_zeta : R;
  other_beam_shift_pzeta : R;
  post_subtract_x : R;
  post_subtract_px : R;
  post_subtract_y : R;
  post_subtract_py : R;
  post_subtract_zeta : R;
  post_subtract_pzeta : R;
  other_beam_q0 : R;
  min_sigma_diff : R;
  threshold_singular : R;
  do_beamstrahlung : Z
}.

(** The six coordinates handed to the kick by pointer
    ([x_star], ..., [pzeta_star]); in the driver they are the locals
    [x], ..., [pzeta]. *)
Record Coords : Type := mkCoords {
  x_star : R;
  px_star : R;
  y_star : R;
  py_star : R;
  zeta_star : R;
  pzeta_star : R
}.

(** The eight outputs of [Sigmas_propagate]. *)
Record SigmasAtCP : Type := mkSigmas {
  Sig_11_hat_star : R;
  Sig_33_hat_star : R;
  costheta : R;
  sintheta : R;
  dS_Sig_11_hat_star : R;
  dS_Sig_33_hat_star : R;
  dS_costheta : R;
  dS_sintheta : R
}.

(** Call log.  This is instrumentation of the model, absent from the C
    state: each call of the kick and of a radiation routine appends one
    entry, so that "is invoked" can be stated.  The kick entry carries the
    collision point [S]; a radiation entry carries [*pzeta_star] as it was on
    entry and as reloaded from the particle after the call. *)
Inductive Call : Type :=
| Call_synchrobeam_kick (i_slice : Z) (S : R)
| Call_synrad (i_slice : Z) (pzeta_in pzeta_reloaded : R)
| Call_synrad_avg (i_slice : Z) (pzeta_in pzeta_reloaded : R).

(** ** Collaborators

    Everything the two functions call or read that is declared elsewhere:
    the physical constants, the particle accessors, the record buffer, the
    Sigma propagator, the two field solvers, the two radiation routines and
    the two frame transforms.  [RecordStore] is the content of the buffer
    behind the [record] pointer; [table] and [table_index] point into it, so
    a null [record] is [None] and [synrad] returns the buffer it may have
    appended to. *)
Class Collaborators : Type := {
  C_LIGHT : R;
  QELEM : R;
  LocalParticle : Type;
  RecordStore : Type;
  LocalParticle_get_x : LocalParticle -> R;
  LocalParticle_get_px : LocalParticle -> R;
  LocalParticle_get_y : LocalParticle -> R;
  LocalParticle_get_py : LocalParticle -> R;
  LocalParticle_get_zeta : LocalParticle -> R;
  LocalParticle_get_pzeta : LocalParticle -> R;
  LocalParticle_get_delta : LocalParticle -> R;
  LocalParticle_get_q0 : LocalParticle -> R;
  LocalParticle_get_p0c : LocalParticle -> R;
  LocalParticle_get_rpp : LocalParticle -> R;
  LocalParticle_set_x : LocalParticle -> R -> LocalParticle;
  LocalParticle_set_px : LocalParticle -> R -> LocalParticle;
  LocalParticle_set_y : LocalParticle -> R -> LocalParticle;
  LocalParticle_set_py : LocalParticle -> R -> LocalParticle;
  LocalParticle_set_zeta : LocalParticle -> R -> LocalParticle;
  LocalParticle_update_pzeta : LocalParticle -> R -> LocalParticle;
  BeamBeamBiGaussian3DData_getp_internal_record :
    BeamBeamBiGaussian3DData -> LocalParticle -> option RecordStore;
  (* Sig_11_0 .. Sig_44_0, S, threshold_singular, handle_singularities *)
  Sigmas_propagate :
    R -> R -> R -> R -> R -> R -> R -> R -> R -> R ->
    R -> R -> Z -> SigmasAtCP;
  (* x, y, sigma_x, sigma_y, min_sigma_diff |-> (Ex, Ey) *)
  get_Ex_Ey_gauss : R -> R -> R -> R -> R -> R * R;
  (* x, y, sigma_x, sigma_y, min_sigma_diff, Ex, Ey |-> (Gx, Gy) *)
  compute_Gx_Gy : R -> R -> R -> R -> R -> R -> R -> R * R;
  (* part, record, Fr, dz |-> (part, record, energy_loss) *)
  synrad :
    LocalParticle -> option RecordStore -> R -> R ->
    LocalParticle * option RecordStore * R;
  (* part, n_bb, sigma_x, sigma_y, sigma_z |-> (part, energy_loss) *)
  synrad_avg :
    LocalParticle -> R -> R -> R -> R -> LocalParticle * R;
  (* coordinates, six shifts, sin_phi cos_phi tan_phi sin_alpha cos_alpha *)
  change_ref_frame_coordinates :
    Coords -> R -> R -> R -> R -> R -> R ->
    R -> R -> R -> R -> R -> Coords;
  (* coordinates, six shifts, six post_subtract, five trigonometric values *)
  change_back_ref_frame_and_subtract_dipolar_coordinates :
    Coords -> R -> R -> R -> R -> R -> R ->
    R -> R -> R -> R -> R -> R ->
    R -> R -> R -> R -> R -> Coords
}.

(** [hypot] of the C library. *)
Definition hypot (x y : R) : R := sqrt (x * x + y * y).

(** ** The kick *)

(** The local variables of [synchrobeam_kick] up to the longitudinal kick
    (source lines 43-126).  The local [S] is the field [S_CP], since [S] is
    the successor of [nat]. *)
Record KickLocals : Type := mkLocals {
  P0 : R;
  Ksl : R;
  S_CP : R;
  sigmas : SigmasAtCP;
  x_bar_star : R;
  y_bar_star : R;
  x_bar_hat_star : R;
  y_bar_hat_star : R;
  dS_x_bar_hat_star : R;
  dS_y_bar_hat_star : R;
  Ex : R;
  Ey : R;
  Gx : R;
  Gy : R;
  Fx_hat_star : R;
  Fy_hat_star : R;
  Gx_hat_star : R;
  Gy_hat_star : R;
  Fx_star : R;
  Fy_star : R;
  Fz_star : R
}.

Section Kernel.

Context {E : Collaborators}.

Definition kick_locals (el : BeamBeamBiGaussian3DData) (i_slice : Z)
    (q0 p0c : R) (c : Coords) : KickLocals :=
  let q0_bb := other_beam_q0 el in
  let sl := slices_other_beam el i_slice in
  let num_part_slice := num_particles sl in
  let x_slice_star := x_center_star sl in
  let y_slice_star := y_center_star sl in
  let zeta_slice_star := zeta_center_star sl in
  let P0 := p0c / C_LIGHT * QELEM in
  let Ksl := num_part_slice * QELEM * q0_bb * QELEM * q0 / (P0 * C_LIGHT) in
  let S := 0.5 * (zeta_star c - zeta_slice_star) in
  let sg :=
    Sigmas_propagate
      (Sigma_11_star sl) (Sigma_12_star sl) (Sigma_13_star sl)
      (Sigma_14_star sl) (Sigma_22_star sl) (Sigma_23_star sl)
      (Sigma_24_star sl) (Sigma_33_star sl) (Sigma_34_star sl)
      (Sigma_44_star sl)
      S (threshold_singular el) 1%Z in
  let x_bar_star := x_star c + px_star c * S - x_slice_star in
  let y_bar_star := y_star c + py_star c * S - y_slice_star in
  let x_bar_hat_star := x_bar_star * costheta sg + y_bar_star * sintheta sg in
  let y_bar_hat_star := - x_bar_star * sintheta sg + y_bar_star * costheta sg in
  let dS_x_bar_hat_star :=
    x_bar_star * dS_costheta sg + y_bar_star * dS_sintheta sg in
  let dS_y_bar_hat_star :=
    - x_bar_star * dS_sintheta sg + y_bar_star * dS_costheta sg in
  let ExEy :=
    get_Ex_Ey_gauss x_bar_hat_star y_bar_hat_star
      (sqrt (Sig_11_hat_star sg)) (sqrt (Sig_33_hat_star sg))
      (min_sigma_diff el) in
  let Ex := fst ExEy in
  let Ey := snd ExEy in
  let GxGy :=
    compute_Gx_Gy x_bar_hat_star y_bar_hat_star
      (sqrt (Sig_11_hat_star sg)) (sqrt (Sig_33_hat_star sg))
      (min_sigma_diff el) Ex Ey in
  let Gx := fst GxGy in
  let Gy := snd GxGy in
  let Fx_hat_star := Ksl * Ex in
  let Fy_hat_star := Ksl * Ey in
  let Gx_hat_star := Ksl * Gx in
  let Gy_hat_star := Ksl * Gy in
  let Fx_star := Fx_hat_star * costheta sg - Fy_hat_star * sintheta sg in
  let Fy_star := Fx_hat_star * sintheta sg + Fy_hat_star * costheta sg in
  let Fz_star :=
    0.5 * (Fx_hat_star * dS_x_bar_hat_star + Fy_hat_star * dS_y_bar_hat_star +
           Gx_hat_star * dS_Sig_11_hat_star sg +
           Gy_hat_star * dS_Sig_33_hat_star sg) in
  mkLocals P0 Ksl S sg x_bar_star y_bar_star x_bar_hat_star y_bar_hat_star
    dS_x_bar_hat_star dS_y_bar_hat_star Ex Ey Gx Gy
    Fx_hat_star Fy_hat_star Gx_hat_star Gy_hat_star
    Fx_star Fy_star Fz_star.

(** What the kick leaves behind: the particle, the record buffer, the six
    coordinates and the call log. *)
Record KickResult : Type := mkKick {
  k_part : LocalParticle;
  k_record : option RecordStore;
  k_coords : Coords;
  k_log : list Call
}.

(** What the beamstrahlung branch leaves behind: the particle, the record
    buffer, the value of [*pzeta_star] and the call log. *)
Record RadResult : Type := mkRad {
  r_part : LocalParticle;
  r_record : option RecordStore;
  r_pzeta : R;
  r_log : list Call
}.

(** The beamstrahlung branch (source lines 139-155).  [pzeta] is
    [*pzeta_star] on entry. *)
Definition beamstrahlung (el : BeamBeamBiGaussian3DData)
    (part : LocalParticle) (record : option RecordStore) (i_slice : Z)
    (L : KickLocals) (pzeta : R) (log : list Call) : RadResult :=
  let sl := slices_other_beam el i_slice in
  if (do_beamstrahlung el =? 1)%Z then
    (* total kick *)
    let Fr := hypot (Fx_star L) (Fy_star L) * LocalParticle_get_rpp part in
    (* half slice length *)
    let dz := 0.5 * zeta_bin_width_star sl in
    let r := synrad part record Fr dz in
    let part' := fst (fst r) in
    let record' := snd (fst r) in
    (* load again before kick *)
    let pzeta' := LocalParticle_get_pzeta part' in
    mkRad part' record' pzeta' (log ++ [Call_synrad i_slice pzeta pzeta'])
  else if (do_beamstrahlung el =? 2)%Z then
    let var_z_bb := 0.0121 in
    let r :=
      synrad_avg part (num_particles sl)
        (sqrt (Sig_11_hat_star (sigmas L))) (sqrt (Sig_33_hat_star (sigmas L)))
        var_z_bb in
    let part' := fst r in
    let pzeta' := LocalParticle_get_pzeta part' in
    mkRad part' record pzeta' (log ++ [Call_synrad_avg i_slice pzeta pzeta'])
  else
    mkRad part record pzeta log.

Definition synchrobeam_kick (el : BeamBeamBiGaussian3DData)
    (part : LocalParticle) (record : option RecordStore) (i_slice : Z)
    (q0 p0c : R) (c : Coords) (log : list Call) : KickResult :=
  let L := kick_locals el i_slice q0 p0c c in
  let S := S_CP L in
  let b :=
    beamstrahlung el part record i_slice L (pzeta_star c)
      (log ++ [Call_synchrobeam_kick i_slice S]) in
  let pzeta := r_pzeta b in
  (* Apply the kicks (Hirata's synchro-beam) *)
  let pzeta' :=
    pzeta + Fz_star L +
    0.5 * (Fx_star L * (px_star c + 0.5 * Fx_star L) +
           Fy_star L * (py_star c + 0.5 * Fy_star L)) in
  let x' := x_star c - S * Fx_star L in
  let px' := px_star c + Fx_star L in
  let y' := y_star c - S * Fy_star L in
  let py' := py_star c + Fy_star L in
  mkKick (r_part b) (r_record b)
    (mkCoords x' px' y' py' (zeta_star c) pzeta') (r_log b).

(** ** The track driver *)

(** The state of one particle inside
    [BeamBeamBiGaussian3D_track_local_particle]: the particle, the record
    buffer, the locals [x], [px], [y], [py], [zeta], [pzeta] (as [Coords]),
    the local [delta], and the call log. *)
Record TrackState : Type := mkTrack {
  tl_part : LocalParticle;
  tl_record : option RecordStore;
  tl_coords : Coords;
  tl_delta : R;
  tl_log : list Call
}.

(** [pzeta = ...;] on the driver's locals. *)
Definition with_pzeta (c : Coords) (pzeta : R) : Coords :=
  mkCoords (x_star c) (px_star c) (y_star c) (py_star c) (zeta_star c) pzeta.

(** The body of the slice loop (source lines 255-284). *)
Definition slice_iteration (el : BeamBeamBiGaussian3DData) (q0 p0c : R)
    (i_slice : Z) (st : TrackState) : TrackState :=
  let part := tl_part st in
  (* reload boosted pzeta after each slice kick *)
  let pzeta := LocalParticle_get_pzeta part in
  let delta := LocalParticle_get_delta part in
  let c := with_pzeta (tl_coords st) pzeta in
  (* only apply kick if the strong slice is not empty *)
  let num_macroparts_slice :=
    num_macroparticles (slices_other_beam el i_slice) in
  if Rlt_dec 2 num_macroparts_slice then
    let k :=
      synchrobeam_kick el part (tl_record st) i_slice q0 p0c c (tl_log st) in
    mkTrack (LocalParticle_update_pzeta (k_part k) (pzeta_star (k_coords k)))
      (k_record k) (k_coords k) delta (k_log k)
  else
    mkTrack part (tl_record st) c delta (tl_log st).

(** [for (int i_slice = ...; i_slice < N_slices; i_slice++)] with [n]
    iterations left. *)
Fixpoint slice_loop (el : BeamBeamBiGaussian3DData) (q0 p0c : R)
    (n : nat) (i_slice : Z) (st : TrackState) : TrackState :=
  match n with
  | O => st
  | S n' =>
      slice_loop el q0 p0c n' (i_slice + 1)%Z
        (slice_iteration el q0 p0c i_slice st)
  end.

(** The driver's state when the slice loop is entered (source lines
    175-251) for the particle [part]. *)
Definition boosted_state (el : BeamBeamBiGaussian3DData)
    (part : LocalParticle) : TrackState :=
  let shift_x := ref_shift_x el + other_beam_shift_x el in
  let shift_px := ref_shift_px el + other_beam_shift_px el in
  let shift_y := ref_shift_y el + other_beam_shift_y el in
  let shift_py := ref_shift_py el + other_beam_shift_py el in
  let shift_zeta := ref_shift_zeta el + other_beam_shift_zeta el in
  let shift_pzeta := ref_shift_pzeta el + other_beam_shift_pzeta el in
  let record := BeamBeamBiGaussian3DData_getp_internal_record el part in
  let c :=
    mkCoords (LocalParticle_get_x part) (LocalParticle_get_px part)
      (LocalParticle_get_y part) (LocalParticle_get_py part)
      (LocalParticle_get_zeta part) (LocalParticle_get_pzeta part) in
  let delta := LocalParticle_get_delta part in
  (* Change reference frame *)
  let c :=
    change_ref_frame_coordinates c
      shift_x shift_px shift_y shift_py shift_zeta shift_pzeta
      (_sin_phi el) (_cos_phi el) (_tan_phi el)
      (_sin_alpha el) (_cos_alpha el) in
  let part := LocalParticle_update_pzeta part (pzeta_star c) in
  mkTrack part record c delta [].

(** The state after the slice loop (source lines 253-284). *)
Definition after_slices (el : BeamBeamBiGaussian3DData)
    (part : LocalParticle) : TrackState :=
  let q0 := LocalParticle_get_q0 part in
  let p0c := LocalParticle_get_p0c part in
  let N_slices := num_slices_other_beam el in
  slice_loop el q0 p0c (Z.to_nat N_slices) 0%Z (boosted_state el part).

Definition BeamBeamBiGaussian3D_track_local_particle
    (el : BeamBeamBiGaussian3DData) (part : LocalParticle) : TrackState :=
  let shift_x := ref_shift_x el + other_beam_shift_x el in
  let shift_px := ref_shift_px el + other_beam_shift_px el in
  let shift_y := ref_shift_y el + other_beam_shift_y el in
  let shift_py := ref_shift_py el + other_beam_shift_py el in
  let shift_zeta := ref_shift_zeta el + other_beam_shift_zeta el in
  let shift_pzeta := ref_shift_pzeta el + other_beam_shift_pzeta el in
  let st := after_slices el part in
  (* Go back to original reference frame and remove dipolar effect *)
  let c :=
    change_back_ref_frame_and_subtract_dipolar_coordinates (tl_coords st)
      shift_x shift_px shift_y shift_py shift_zeta shift_pzeta
      (post_subtract_x el) (post_subtract_px el)
      (post_subtract_y el) (post_subtract_py el)
      (post_subtract_zeta el) (post_subtract_pzeta el)
      (_sin_phi el) (_cos_phi el) (_tan_phi el)
      (_sin_alpha el) (_cos_alpha el) in
  (* Store *)
  let part := tl_part st in
  let part := LocalParticle_set_x part (x_star c) in
  let part := LocalParticle_set_px part (px_star c) in
  let part := LocalParticle_set_y part (y_star c) in
  let part := LocalParticle_set_py part (py_star c) in
  let part := LocalParticle_set_zeta part (zeta_star c) in
  let part := LocalParticle_update_pzeta part (pzeta_star c) in
  mkTrack part (tl_record st) c (tl_delta st) (tl_log st).

(** [el] with the beamstrahlung flag set to [m], everything else as it
    is: used to compare two runs that differ in the mode only. *)
Definition set_do_beamstrahlung (el : BeamBeamBiGaussian3DData) (m : Z)
    : BeamBeamBiGaussian3DData :=
  mkEl (_sin_phi el) (_cos_phi el) (_tan_phi el) (_sin_alpha el)
    (_cos_alpha el) (num_slices_other_beam el) (slices_other_beam el)
    (ref_shift_x el) (ref_shift_px el) (ref_shift_y el) (ref_shift_py el)
    (ref_shift_zeta el) (ref_shift_pzeta el)
    (other_beam_shift_x el) (other_beam_shift_px el) (other_beam_shift_y el)
    (other_beam_shift_py el) (other_beam_shift_zeta el)
    (other_beam_shift_pzeta el)
    (post_subtract_x el) (post_subtract_px el) (post_subtract_y el)
    (post_subtract_py el) (post_subtract_zeta el) (post_subtract_pzeta el)
    (other_beam_q0 el) (min_sigma_diff el) (threshold_singular el) m.

(** [el] with the slice table read backwards: entry [i] of every slice
    array is the entry [N_slices - 1 - i] of [el]. *)
Definition reverse_slices (el : BeamBeamBiGaussian3DData)
    : BeamBeamBiGaussian3DData :=
  mkEl (_sin_phi el) (_cos_phi el) (_tan_phi el) (_sin_alpha el)
    (_cos_alpha el) (num_slices_other_beam el)
    (fun i => slices_other_beam el (num_slices_other_beam el - 1 - i)%Z)
    (ref_shift_x el) (ref_shift_px el) (ref_shift_y el) (ref_shift_py el)
    (ref_shift_zeta el) (ref_shift_pzeta el)
    (other_beam_shift_x el) (other_beam_shift_px el) (other_beam_shift_y el)
    (other_beam_shift_py el) (other_beam_shift_zeta el)
    (other_beam_shift_pzeta el)
    (post_subtract_x el) (post_subtract_px el) (post_subtract_y el)
    (post_subtract_py el) (post_subtract_zeta el) (post_subtract_pzeta el)
    (other_beam_q0 el) (min_sigma_diff el) (threshold_singular el)
    (do_beamstrahlung el).

(** The calls the beamstrahlung branch logs, as a function of the mode:
    [pzeta_in] is [*pzeta_star] on entry, [pzeta1] and [pzeta2] the value
    reloaded from the particle after [synrad] and after [synrad_avg]. *)
Definition radiation_calls (mode i_slice : Z) (pzeta_in pzeta1 pzeta2 : R)
    : list Call :=
  if (mode =? 1)%Z then [Call_synrad i_slice pzeta_in pzeta1]
  else if (mode =? 2)%Z then [Call_synrad_avg i_slice pzeta_in pzeta2]
  else [].


(** A logged kick of slice [j] was made at the collision point that the
    longitudinal coordinate [zeta] gives for that slice. *)
Definition kick_at_CP_of (el : BeamBeamBiGaussian3DData) (zeta : R)
    (call : Call) : Prop :=
  match call with
  | Call_synchrobeam_kick j s =>
      s = 0.5 * (zeta - zeta_center_star (slices_other_beam el j))
  | _ => True
  end.

(** Two sets of coordinates that differ at most in [pzeta_star]. *)
Definition same_but_pzeta (c c' : Coords) : Prop :=
  x_star c = x_star c' /\ px_star c = px_star c' /\
  y_star c = y_star c' /\ py_star c = py_star c' /\
  zeta_star c = zeta_star c'.

End Kernel.

(** ** Reading the call log *)




(** A log entry that is a call of the kick. *)
Definition is_kick_call (call : Call) : Prop :=
  match call with
  | Call_synchrobeam_kick _ _ => True
  | _ => False
  end.

(** A log entry that is not a call of [synrad]. *)
Definition not_synrad_call (call : Call) : Prop :=
  match call with
  | Call_synrad _ _ _ => False
  | _ => True
  end.

(** ** A concrete set of collaborators

    The kernel is evaluated on explicit inputs with the collaborators below.
    They are stand-ins that fit the interface, not the routines of the
    library: a particle that stores its coordinates, an uncoupled Sigma
    propagator without drift, a linear field [(Ex, Ey) = (x, y)] without
    gradient terms, radiation routines that lower [pzeta] in proportion to
    the kick they are handed, respectively to the slice intensity (so that
    they radiate nothing at zero kick and at zero intensity), and frame
    transforms that are the identity (zero crossing angle, no shifts).  The
    constants are the SI values. *)

Record Particle : Type := mkParticle {
  p_x : R;
  p_px : R;
  p_y : R;
  p_py : R;
  p_zeta : R;
  p_pzeta : R;
  p_q0 : R;
  p_p0c : R
}.

Definition lens_set_x (p : Particle) (v : R) : Particle :=
  mkParticle v (p_px p) (p_y p) (p_py p) (p_zeta p) (p_pzeta p)
    (p_q0 p) (p_p0c p).

Definition lens_set_px (p : Particle) (v : R) : Particle :=
  mkParticle (p_x p) v (p_y p) (p_py p) (p_zeta p) (p_pzeta p)
    (p_q0 p) (p_p0c p).

Definition lens_set_y (p : Particle) (v : R) : Particle :=
  mkParticle (p_x p) (p_px p) v (p_py p) (p_zeta p) (p_pzeta p)
    (p_q0 p) (p_p0c p).

Definition lens_set_py (p : Particle) (v : R) : Particle :=
  mkParticle (p_x p) (p_px p) (p_y p) v (p_zeta p) (p_pzeta p)
    (p_q0 p) (p_p0c p).

Definition lens_set_zeta (p : Particle) (v : R) : Particle :=
  mkParticle (p_x p) (p_px p) (p_y p) (p_py p) v (p_pzeta p)
    (p_q0 p) (p_p0c p).

Definition lens_update_pzeta (p : Particle) (v : R) : Particle :=
  mkParticle (p_x p) (p_px p) (p_y p) (p_py p) (p_zeta p) v
    (p_q0 p) (p_p0c p).

(** The loss of [pzeta] per unit of kick, respectively per particle of
    the slice, in the radiation routines of the stand-in. *)
Definition lens_loss : R := 1e-22.

Definition lens_synrad (p : Particle) (record : option (list R))
    (Fr dz : R) : Particle * option (list R) * R :=
  (lens_update_pzeta p (p_pzeta p - lens_loss * Fr),
   match record with
   | Some photons => Some (photons ++ [lens_loss * Fr])
   | None => None
   end,
   lens_loss * Fr).

Definition lens_synrad_avg (p : Particle) (n_bb sigma_x sigma_y sigma_z : R)
    : Particle * R :=
  (lens_update_pzeta p (p_pzeta p - lens_loss * n_bb), lens_loss * n_bb).

Definition lens_Sigmas_propagate
    (Sig_11_0 Sig_12_0 Sig_13_0 Sig_14_0 Sig_22_0 Sig_23_0 Sig_24_0
     Sig_33_0 Sig_34_0 Sig_44_0 S threshold_singular : R)
    (handle_singularities : Z) : SigmasAtCP :=
  mkSigmas Sig_11_0 Sig_33_0 1 0 0 0 0 0.

Definition thin_lens : Collaborators := {|
  C_LIGHT := 299792458;
  QELEM := 1.602176634e-19;
  LocalParticle := Particle;
  RecordStore := list R;
  LocalParticle_get_x := p_x;
  LocalParticle_get_px := p_px;
  LocalParticle_get_y := p_y;
  LocalParticle_get_py := p_py;
  LocalParticle_get_zeta := p_zeta;
  LocalParticle_get_pzeta := p_pzeta;
  LocalParticle_get_delta := p_pzeta;
  LocalParticle_get_q0 := p_q0;
  LocalParticle_get_p0c := p_p0c;
  LocalParticle_get_rpp := fun p => 1 / (1 + p_pzeta p);
  LocalParticle_set_x := lens_set_x;
  LocalParticle_set_px := lens_set_px;
  LocalParticle_set_y := lens_set_y;
  LocalParticle_set_py := lens_set_py;
  LocalParticle_set_zeta := lens_set_zeta;
  LocalParticle_update_pzeta := lens_update_pzeta;
  BeamBeamBiGaussian3DData_getp_internal_record := fun _ _ => None;
  Sigmas_propagate := lens_Sigmas_propagate;
  get_Ex_Ey_gauss := fun x y _ _ _ => (x, y);
  compute_Gx_Gy := fun _ _ _ _ _ _ _ => (0, 0);
  synrad := lens_synrad;
  synrad_avg := lens_synrad_avg;
  change_ref_frame_coordinates :=
    fun c _ _ _ _ _ _ _ _ _ _ _ => c;
  change_back_ref_frame_and_subtract_dipolar_coordinates :=
    fun c _ _ _ _ _ _ _ _ _ _ _ _ _ _ _ _ _ => c
|}.

(** A round, uncoupled, transversally centred slice with intensity [n],
    [nm] macroparticles and longitudinal centre [zc]. *)
Definition lens_slice (n nm zc : R) : Slice :=
  mkSlice 1 0 0 0 0 0 0 1 0 0 n nm 0 0 zc 1.

(** An element for a head-on collision with the slice table [table] of
    [N] slices and beamstrahlung mode [mode]. *)
Definition lens_el (N : Z) (table : Z -> Slice) (mode : Z)
    : BeamBeamBiGaussian3DData :=
  mkEl 0 1 0 0 1 N table
    0 0 0 0 0 0  0 0 0 0 0 0  0 0 0 0 0 0
    1 1e-10 1e-28 mode.

(** A test particle at [x = 1], at rest transversally, with unit charge;
    with [p0c] as below and a slice intensity of [1e19] the force scale
    [Ksl] is 1. *)
Definition lens_part : Particle :=
  mkParticle 1 0 0 0 0 0 1 1.602176634.

(** An asymmetric table of two slices: slice 0 is centred at [zeta = -2],
    slice 1 at [zeta = 0]. *)
Definition lens_two_slices (i : Z) : Slice :=
  if (i =? 0)%Z then lens_slice 1e19 10 (-2) else lens_slice 1e19 10 0.

(** A table whose slice 0 has no charge and ten macroparticles. *)
Definition lens_empty_slice (i : Z) : Slice := lens_slice 0 10 0.

(** A table whose slice 0 has two macroparticles. *)
Definition lens_sparse_slice (i : Z) : Slice := lens_slice 1e19 2 0.






(** ** Properties of the kick *)

Section KickProperties.

Context {E : Collaborators}.

Variable el : BeamBeamBiGaussian3DData.
Variable i_slice : Z.
Variables q0 p0c : R.

(** The locals do not read the beamstrahlung flag. *)
Lemma kick_locals_set_do_beamstrahlung (m : Z) (c : Coords) :
  kick_locals (set_do_beamstrahlung el m) i_slice q0 p0c c =
  kick_locals el i_slice q0 p0c c.
Proof. reflexivity. Qed.

(** The locals do not read [pzeta_star]. *)
Lemma kick_locals_with_pzeta (c : Coords) (pzeta : R) :
  kick_locals el i_slice q0 p0c (with_pzeta c pzeta) =
  kick_locals el i_slice q0 p0c c.
Proof. reflexivity. Qed.

(** The log after the beamstrahlung branch. *)
Lemma beamstrahlung_log (part : LocalParticle) (record : option RecordStore)
    (L : KickLocals) (pzeta : R) (log : list Call) :
  r_log (beamstrahlung el part record i_slice L pzeta log) =
  log ++
  radiation_calls (do_beamstrahlung el) i_slice pzeta
    (LocalParticle_get_pzeta
       (fst (fst (synrad part record
                    (hypot (Fx_star L) (Fy_star L) *
                     LocalParticle_get_rpp part)
                    (0.5 * zeta_bin_width_star
                             (slices_other_beam el i_slice))))))
    (LocalParticle_get_pzeta
       (fst (synrad_avg part (num_particles (slices_other_beam el i_slice))
               (sqrt (Sig_11_hat_star (sigmas L)))
               (sqrt (Sig_33_hat_star (sigmas L))) 0.0121))).
Proof.
  unfold beamstrahlung, radiation_calls.
  destruct (do_beamstrahlung el =? 1)%Z; [reflexivity|].
  destruct (do_beamstrahlung el =? 2)%Z; [reflexivity|].
  now rewrite app_nil_r.
Qed.

(** [*pzeta_star] after the beamstrahlung branch. *)
Lemma beamstrahlung_pzeta (part : LocalParticle)
    (record : option RecordStore) (L : KickLocals) (pzeta : R)
    (log : list Call) :
  r_pzeta (beamstrahlung el part record i_slice L pzeta log) =
  if (do_beamstrahlung el =? 1)%Z then
    LocalParticle_get_pzeta
      (fst (fst (synrad part record
                   (hypot (Fx_star L) (Fy_star L) *
                    LocalParticle_get_rpp part)
                   (0.5 * zeta_bin_width_star
                            (slices_other_beam el i_slice)))))
  else if (do_beamstrahlung el =? 2)%Z then
    LocalParticle_get_pzeta
      (fst (synrad_avg part (num_particles (slices_other_beam el i_slice))
              (sqrt (Sig_11_hat_star (sigmas L)))
              (sqrt (Sig_33_hat_star (sigmas L))) 0.0121))
  else pzeta.
Proof.
  unfold beamstrahlung.
  destruct (do_beamstrahlung el =? 1)%Z; [reflexivity|].
  destruct (do_beamstrahlung el =? 2)%Z; reflexivity.
Qed.

(** The six coordinates the kick writes back. *)
Lemma synchrobeam_kick_coords (part : LocalParticle)
    (record : option RecordStore) (c : Coords) (log : list Call) :
  let L := kick_locals el i_slice q0 p0c c in
  k_coords (synchrobeam_kick el part record i_slice q0 p0c c log) =
  mkCoords
    (x_star c - S_CP L * Fx_star L)
    (px_star c + Fx_star L)
    (y_star c - S_CP L * Fy_star L)
    (py_star c + Fy_star L)
    (zeta_star c)
    (r_pzeta (beamstrahlung el part record i_slice L (pzeta_star c)
                (log ++ [Call_synchrobeam_kick i_slice (S_CP L)])) +
     Fz_star L +
     0.5 * (Fx_star L * (px_star c + 0.5 * Fx_star L) +
            Fy_star L * (py_star c + 0.5 * Fy_star L))).
Proof. reflexivity. Qed.

(** C1. Whatever the particle and the slice, the kick ends with the map of
    step 10: [pzeta] (as it stands after the beamstrahlung branch: the
    incoming value in mode 0, the value reloaded from the particle in modes
    1 and 2) is incremented by
    [Fz_star + 0.5*(Fx_star*(px+0.5*Fx_star) + Fy_star*(py+0.5*Fy_star))]
    with the pre-kick [px] and [py]; [x] is decremented by [S*Fx_star],
    [px] incremented by [Fx_star], [y] decremented by [S*Fy_star] and [py]
    incremented by [Fy_star], with the pre-kick [S]. *)
Theorem synchrobeam_kick_final_update
    (part : LocalParticle) (record : option RecordStore) (c : Coords)
    (log : list Call) :
  let L := kick_locals el i_slice q0 p0c c in
  let k := synchrobeam_kick el part record i_slice q0 p0c c log in
  let pzeta :=
    if (do_beamstrahlung el =? 1)%Z then
      LocalParticle_get_pzeta
        (fst (fst (synrad part record
                     (hypot (Fx_star L) (Fy_star L) *
                      LocalParticle_get_rpp part)
                     (0.5 * zeta_bin_width_star
                              (slices_other_beam el i_slice)))))
    else if (do_beamstrahlung el =? 2)%Z then
      LocalParticle_get_pzeta
        (fst (synrad_avg part (num_particles (slices_other_beam el i_slice))
                (sqrt (Sig_11_hat_star (sigmas L)))
                (sqrt (Sig_33_hat_star (sigmas L))) 0.0121))
    else pzeta_star c in
  pzeta_star (k_coords k) =
    pzeta + (Fz_star L +
             0.5 * (Fx_star L * (px_star c + 0.5 * Fx_star L) +
                    Fy_star L * (py_star c + 0.5 * Fy_star L))) /\
  x_star (k_coords k) = x_star c - S_CP L * Fx_star L /\
  px_star (k_coords k) = px_star c + Fx_star L /\
  y_star (k_coords k) = y_star c - S_CP L * Fy_star L /\
  py_star (k_coords k) = py_star c + Fy_star L /\
  S_CP L = 0.5 * (zeta_star c - zeta_center_star (slices_other_beam el i_slice)).
Proof.
  intros L k pzeta.
  repeat split; try reflexivity.
  subst k pzeta. rewrite synchrobeam_kick_coords. fold L.
  cbn [pzeta_star]. rewrite beamstrahlung_pzeta. ring.
Qed.

(** C2. In every invocation the longitudinal kick is one half of the sum,
    over the two transverse planes, of the diagonal-frame transverse kick
    times the S-derivative of the diagonal-frame offset and of the
    diagonal-frame gradient kick times the S-derivative of the principal
    variance; the S-derivatives of the offset are the offset rotated by the
    S-derivative of the rotation, and the S-derivatives of the variances are
    those returned by the Sigma propagator at the collision point. *)
Theorem longitudinal_kick_formula (c : Coords) :
  let L := kick_locals el i_slice q0 p0c c in
  let sl := slices_other_beam el i_slice in
  Fz_star L =
    0.5 * (Fx_hat_star L * dS_x_bar_hat_star L +
           Fy_hat_star L * dS_y_bar_hat_star L +
           Gx_hat_star L * dS_Sig_11_hat_star (sigmas L) +
           Gy_hat_star L * dS_Sig_33_hat_star (sigmas L)) /\
  dS_x_bar_hat_star L =
    x_bar_star L * dS_costheta (sigmas L) +
    y_bar_star L * dS_sintheta (sigmas L) /\
  dS_y_bar_hat_star L =
    - x_bar_star L * dS_sintheta (sigmas L) +
    y_bar_star L * dS_costheta (sigmas L) /\
  sigmas L =
    Sigmas_propagate
      (Sigma_11_star sl) (Sigma_12_star sl) (Sigma_13_star sl)
      (Sigma_14_star sl) (Sigma_22_star sl) (Sigma_23_star sl)
      (Sigma_24_star sl) (Sigma_33_star sl) (Sigma_34_star sl)
      (Sigma_44_star sl)
      (S_CP L) (threshold_singular el) 1%Z.
Proof. repeat split. Qed.

(** C5. In every invocation the collision point is
    [S = 0.5*(zeta_star - zeta_slice_star)]; the offset from the slice
    centroid is the drifted one, [x_star + px_star*S - x_slice_star] and
    likewise in [y]; it is rotated into the diagonal frame by the
    [(costheta, sintheta)] that the Sigma propagator returns at [S], and the
    field solver is evaluated at the rotated offset. *)
Theorem collision_point_geometry (c : Coords) :
  let L := kick_locals el i_slice q0 p0c c in
  let sl := slices_other_beam el i_slice in
  S_CP L = 0.5 * (zeta_star c - zeta_center_star sl) /\
  x_bar_star L = x_star c + px_star c * S_CP L - x_center_star sl /\
  y_bar_star L = y_star c + py_star c * S_CP L - y_center_star sl /\
  sigmas L =
    Sigmas_propagate
      (Sigma_11_star sl) (Sigma_12_star sl) (Sigma_13_star sl)
      (Sigma_14_star sl) (Sigma_22_star sl) (Sigma_23_star sl)
      (Sigma_24_star sl) (Sigma_33_star sl) (Sigma_34_star sl)
      (Sigma_44_star sl)
      (S_CP L) (threshold_singular el) 1%Z /\
  x_bar_hat_star L =
    x_bar_star L * costheta (sigmas L) + y_bar_star L * sintheta (sigmas L) /\
  y_bar_hat_star L =
    - x_bar_star L * sintheta (sigmas L) + y_bar_star L * costheta (sigmas L) /\
  (Ex L, Ey L) =
    get_Ex_Ey_gauss (x_bar_hat_star L) (y_bar_hat_star L)
      (sqrt (Sig_11_hat_star (sigmas L))) (sqrt (Sig_33_hat_star (sigmas L)))
      (min_sigma_diff el).
Proof.
  repeat split.
  cbn [kick_locals Ex Ey]. now destruct (get_Ex_Ey_gauss _ _ _ _ _).
Qed.

(** C6. In every invocation
    [Ksl = num_part_slice*e*q0_bb*e*q0/(P0*c)] with [P0 = p0c*e/c], and the
    field outputs [(Ex, Ey)] and the gradient outputs [(Gx, Gy)] are all
    multiplied by that one [Ksl] to give the diagonal-frame kicks. *)
Theorem force_scaling_factor (c : Coords) :
  let L := kick_locals el i_slice q0 p0c c in
  let num_part_slice := num_particles (slices_other_beam el i_slice) in
  Ksl L =
    num_part_slice * QELEM * other_beam_q0 el * QELEM * q0 /
    (P0 L * C_LIGHT) /\
  P0 L = p0c * QELEM / C_LIGHT /\
  Fx_hat_star L = Ksl L * Ex L /\
  Fy_hat_star L = Ksl L * Ey L /\
  Gx_hat_star L = Ksl L * Gx L /\
  Gy_hat_star L = Ksl L * Gy L.
Proof.
  repeat split.
  cbn [kick_locals P0]. unfold Rdiv. ring.
Qed.

End KickProperties.

(** ** Properties of the slice loop *)

Section SliceLoopProperties.

Context {E : Collaborators}.

Variable el : BeamBeamBiGaussian3DData.
Variables q0 p0c : R.

(** The log after one kick: the kick's own entry, then what the
    beamstrahlung branch logs. *)
Lemma synchrobeam_kick_log (part : LocalParticle)
    (record : option RecordStore) (i_slice : Z) (c : Coords)
    (log : list Call) :
  exists pzeta1 pzeta2 : R,
    k_log (synchrobeam_kick el part record i_slice q0 p0c c log) =
    log ++
    Call_synchrobeam_kick i_slice
      (0.5 * (zeta_star c - zeta_center_star (slices_other_beam el i_slice)))
    :: radiation_calls (do_beamstrahlung el) i_slice (pzeta_star c)
         pzeta1 pzeta2.
Proof.
  unfold synchrobeam_kick. cbn [k_log].
  rewrite beamstrahlung_log, <- app_assoc.
  eexists; eexists; reflexivity.
Qed.

Lemma radiation_calls_at_CP (zeta : R) (m i : Z) (a b1 b2 : R) :
  Forall (kick_at_CP_of el zeta) (radiation_calls m i a b1 b2).
Proof.
  unfold radiation_calls.
  destruct (m =? 1)%Z; [repeat constructor|].
  destruct (m =? 2)%Z; repeat constructor.
Qed.

(** The kick writes [zeta_star] back as it read it. *)
Lemma synchrobeam_kick_zeta (part : LocalParticle)
    (record : option RecordStore) (i_slice : Z) (c : Coords)
    (log : list Call) :
  zeta_star (k_coords (synchrobeam_kick el part record i_slice q0 p0c c log)) =
  zeta_star c.
Proof. reflexivity. Qed.

Lemma slice_iteration_zeta (i_slice : Z) (st : TrackState) :
  zeta_star (tl_coords (slice_iteration el q0 p0c i_slice st)) =
  zeta_star (tl_coords st).
Proof.
  unfold slice_iteration.
  destruct (Rlt_dec 2 _); reflexivity.
Qed.

Lemma slice_loop_zeta (n : nat) :
  forall (i_slice : Z) (st : TrackState),
    zeta_star (tl_coords (slice_loop el q0 p0c n i_slice st)) =
    zeta_star (tl_coords st).
Proof.
  induction n as [|n IH]; intros i_slice st; cbn [slice_loop].
  - reflexivity.
  - now rewrite IH, slice_iteration_zeta.
Qed.

Lemma slice_iteration_at_CP (i_slice : Z) (st : TrackState) :
  Forall (kick_at_CP_of el (zeta_star (tl_coords st))) (tl_log st) ->
  Forall (kick_at_CP_of el (zeta_star (tl_coords st)))
    (tl_log (slice_iteration el q0 p0c i_slice st)).
Proof.
  intros H. unfold slice_iteration.
  destruct (Rlt_dec 2 _); cbn [tl_log]; [|exact H].
  destruct (synchrobeam_kick_log (tl_part st) (tl_record st) i_slice
              (with_pzeta (tl_coords st) (LocalParticle_get_pzeta (tl_part st)))
              (tl_log st)) as (b1 & b2 & ->).
  apply Forall_app; split; [exact H|].
  constructor; [reflexivity | apply radiation_calls_at_CP].
Qed.

Lemma slice_loop_at_CP (n : nat) :
  forall (i_slice : Z) (st : TrackState),
    Forall (kick_at_CP_of el (zeta_star (tl_coords st))) (tl_log st) ->
    Forall (kick_at_CP_of el (zeta_star (tl_coords st)))
      (tl_log (slice_loop el q0 p0c n i_slice st)).
Proof.
  induction n as [|n IH]; intros i_slice st H; cbn [slice_loop].
  - exact H.
  - rewrite <- (slice_iteration_zeta i_slice st).
    apply IH. rewrite slice_iteration_zeta.
    now apply slice_iteration_at_CP.
Qed.

(** C4. When a slice has [num_macroparticles <= 2], the loop body makes no
    call (neither the kick nor a radiation routine is logged), leaves the
    particle, the record buffer and [x], [px], [y], [py], [zeta] as they
    were, and the local [pzeta] holds the particle's own [pzeta], reloaded
    at the top of the body: the six locals are unchanged whenever the local
    [pzeta] already was the particle's.  Nothing is written to the record
    buffer; the body has no error result. *)
Theorem sparse_slice_is_skipped (i_slice : Z) (st : TrackState) :
  num_macroparticles (slices_other_beam el i_slice) <= 2 ->
  let st' := slice_iteration el q0 p0c i_slice st in
  tl_log st' = tl_log st /\
  tl_part st' = tl_part st /\
  tl_record st' = tl_record st /\
  x_star (tl_coords st') = x_star (tl_coords st) /\
  px_star (tl_coords st') = px_star (tl_coords st) /\
  y_star (tl_coords st') = y_star (tl_coords st) /\
  py_star (tl_coords st') = py_star (tl_coords st) /\
  zeta_star (tl_coords st') = zeta_star (tl_coords st) /\
  pzeta_star (tl_coords st') = LocalParticle_get_pzeta (tl_part st) /\
  (pzeta_star (tl_coords st) = LocalParticle_get_pzeta (tl_part st) ->
   tl_coords st' = tl_coords st).
Proof.
  intros Hle st'. subst st'. unfold slice_iteration.
  destruct (Rlt_dec 2 _) as [Hlt|_]; [lra|].
  repeat split.
  cbn [tl_coords]. intros <-. now destruct (tl_coords st).
Qed.


End SliceLoopProperties.

(** ** Properties of the driver *)

Section DriverProperties.

Context {E : Collaborators}.

Variable el : BeamBeamBiGaussian3DData.

(** C9. The kick never writes [zeta_star]; so [zeta] after the slice loop
    is the [zeta] the boost left, and every kick made in the loop was made at
    [S = 0.5*(zeta - zeta_slice_star)] for that post-boost [zeta] and the
    centre of its own slice, whatever the earlier slices did. *)
Theorem zeta_is_constant_across_slices (part : LocalParticle) :
  let st0 := boosted_state el part in
  let st := after_slices el part in
  (forall (part' : LocalParticle) (record : option RecordStore)
          (i_slice : Z) (q0 p0c : R) (c : Coords) (log : list Call),
      zeta_star
        (k_coords (synchrobeam_kick el part' record i_slice q0 p0c c log)) =
      zeta_star c) /\
  zeta_star (tl_coords st) = zeta_star (tl_coords st0) /\
  Forall (kick_at_CP_of el (zeta_star (tl_coords st0))) (tl_log st).
Proof.
  intros st0 st. split; [reflexivity|]. subst st. unfold after_slices. split.
  - apply slice_loop_zeta.
  - apply slice_loop_at_CP. constructor.
Qed.

End DriverProperties.

(** ** Zero intensity and the beamstrahlung flag *)

Section IntensityAndMode.

Context {E : Collaborators}.

Variable el : BeamBeamBiGaussian3DData.

Lemma kick_locals_same_but_pzeta (i_slice : Z) (q0 p0c : R) (c c' : Coords) :
  same_but_pzeta c c' ->
  kick_locals el i_slice q0 p0c c = kick_locals el i_slice q0 p0c c'.
Proof.
  destruct c, c'. unfold same_but_pzeta. cbn [x_star px_star y_star py_star zeta_star].
  intros (-> & -> & -> & -> & ->). reflexivity.
Qed.

Lemma Ksl_zero_intensity (i_slice : Z) (q0 p0c : R) (c : Coords) :
  num_particles (slices_other_beam el i_slice) = 0 ->
  Ksl (kick_locals el i_slice q0 p0c c) = 0.
Proof.
  intros H. cbn [kick_locals Ksl]. rewrite H. unfold Rdiv. ring.
Qed.

(** For a slice whose intensity [num_particles] is 0, with no assumption
    on the radiation routines: the kick components are all 0, the kick
    leaves [x], [px], [y], [py] and [zeta] as they were, and [pzeta] comes
    out as it stands after the beamstrahlung branch. *)
Lemma zero_intensity_kick_coords
    (part : LocalParticle) (record : option RecordStore) (i_slice : Z)
    (q0 p0c : R) (c : Coords) (log : list Call) :
  num_particles (slices_other_beam el i_slice) = 0 ->
  let L := kick_locals el i_slice q0 p0c c in
  let k := synchrobeam_kick el part record i_slice q0 p0c c log in
  Fx_star L = 0 /\ Fy_star L = 0 /\ Fz_star L = 0 /\
  x_star (k_coords k) = x_star c /\
  px_star (k_coords k) = px_star c /\
  y_star (k_coords k) = y_star c /\
  py_star (k_coords k) = py_star c /\
  zeta_star (k_coords k) = zeta_star c /\
  pzeta_star (k_coords k) =
    if (do_beamstrahlung el =? 1)%Z then
      LocalParticle_get_pzeta
        (fst (fst (synrad part record
                     (hypot (Fx_star L) (Fy_star L) *
                      LocalParticle_get_rpp part)
                     (0.5 * zeta_bin_width_star
                              (slices_other_beam el i_slice)))))
    else if (do_beamstrahlung el =? 2)%Z then
      LocalParticle_get_pzeta
        (fst (synrad_avg part (num_particles (slices_other_beam el i_slice))
                (sqrt (Sig_11_hat_star (sigmas L)))
                (sqrt (Sig_33_hat_star (sigmas L))) 0.0121))
    else pzeta_star c.
Proof.
  intros H L k.
  pose proof (Ksl_zero_intensity i_slice q0 p0c c H) as HK. fold L in HK.
  assert (HFx : Fx_star L = 0).
  { change (Fx_star L) with
      (Ksl L * Ex L * costheta (sigmas L) - Ksl L * Ey L * sintheta (sigmas L)).
    rewrite HK. ring. }
  assert (HFy : Fy_star L = 0).
  { change (Fy_star L) with
      (Ksl L * Ex L * sintheta (sigmas L) + Ksl L * Ey L * costheta (sigmas L)).
    rewrite HK. ring. }
  assert (HFz : Fz_star L = 0).
  { change (Fz_star L) with
      (0.5 * (Ksl L * Ex L * dS_x_bar_hat_star L +
              Ksl L * Ey L * dS_y_bar_hat_star L +
              Ksl L * Gx L * dS_Sig_11_hat_star (sigmas L) +
              Ksl L * Gy L * dS_Sig_33_hat_star (sigmas L))).
    rewrite HK. ring. }
  subst k. rewrite synchrobeam_kick_coords. fold L.
  cbn [x_star px_star y_star py_star zeta_star pzeta_star].
  rewrite beamstrahlung_pzeta, HFx, HFy, HFz.
  repeat split; ring.
Qed.

Lemma Coords_ext (c c' : Coords) :
  x_star c = x_star c' -> px_star c = px_star c' ->
  y_star c = y_star c' -> py_star c = py_star c' ->
  zeta_star c = zeta_star c' -> pzeta_star c = pzeta_star c' -> c = c'.
Proof.
  destruct c, c'. cbn [x_star px_star y_star py_star zeta_star pzeta_star].
  intros -> -> -> -> -> ->. reflexivity.
Qed.

Lemma hypot_0_0 : hypot 0 0 = 0.
Proof.
  unfold hypot. replace (0 * 0 + 0 * 0) with 0 by ring. apply sqrt_0.
Qed.

(** C3. For every particle and every slice whose intensity [num_particles]
    is 0, the kick components [Fx_star], [Fy_star], [Fz_star] are all 0 and
    the kick leaves the six coordinates [x], [px], [y], [py], [zeta],
    [pzeta] unchanged, in every beamstrahlung mode.  The radiation routines
    are not part of the source file; what is asked of them is the zero
    limit: [synrad] handed a kick of 0 and [synrad_avg] handed an intensity
    of 0 leave the particle's [pzeta] alone.  [*pzeta_star] is the particle's
    [pzeta] on entry, as the reload at the top of the loop body makes it; so
    the loop body of the driver, on such a slice, ends with the six locals
    it had after that reload. *)
Theorem zero_force_limit
    (part : LocalParticle) (record : option RecordStore) (i_slice : Z)
    (q0 p0c : R) (c : Coords) (log : list Call) :
  num_particles (slices_other_beam el i_slice) = 0 ->
  (forall (p : LocalParticle) (r : option RecordStore) (dz : R),
      LocalParticle_get_pzeta (fst (fst (synrad p r 0 dz))) =
      LocalParticle_get_pzeta p) ->
  (forall (p : LocalParticle) (sigma_x sigma_y sigma_z : R),
      LocalParticle_get_pzeta (fst (synrad_avg p 0 sigma_x sigma_y sigma_z)) =
      LocalParticle_get_pzeta p) ->
  pzeta_star c = LocalParticle_get_pzeta part ->
  let L := kick_locals el i_slice q0 p0c c in
  let k := synchrobeam_kick el part record i_slice q0 p0c c log in
  Fx_star L = 0 /\ Fy_star L = 0 /\ Fz_star L = 0 /\
  k_coords k = c /\
  (forall st : TrackState,
      tl_coords (slice_iteration el q0 p0c i_slice st) =
      with_pzeta (tl_coords st) (LocalParticle_get_pzeta (tl_part st))).
Proof.
  intros H Hrad Havg Hsync L k.
  assert (Hkick : forall (part' : LocalParticle)
                         (record' : option RecordStore) (c' : Coords)
                         (log' : list Call),
            pzeta_star c' = LocalParticle_get_pzeta part' ->
            k_coords (synchrobeam_kick el part' record' i_slice q0 p0c c' log')
            = c').
  { intros part' record' c' log' Hs.
    destruct (zero_intensity_kick_coords part' record' i_slice q0 p0c c' log' H)
      as (HFx & HFy & _ & Hx & Hpx & Hy & Hpy & Hz & Hpz).
    rewrite HFx, HFy, hypot_0_0, Rmult_0_l, H in Hpz.
    rewrite Hrad, Havg in Hpz.
    assert (Hpz' : pzeta_star
                     (k_coords (synchrobeam_kick el part' record' i_slice q0
                                  p0c c' log')) = pzeta_star c').
    { rewrite Hpz. destruct (do_beamstrahlung el =? 1)%Z; [now rewrite Hs|].
      destruct (do_beamstrahlung el =? 2)%Z; [now rewrite Hs | reflexivity]. }
    apply Coords_ext; assumption. }
  destruct (zero_intensity_kick_coords part record i_slice q0 p0c c log H)
    as (HFx & HFy & HFz & _).
  split; [exact HFx|]. split; [exact HFy|]. split; [exact HFz|].
  split; [apply Hkick; exact Hsync|].
  intros st. unfold slice_iteration.
  destruct (Rlt_dec 2 _); cbn [tl_coords]; [|reflexivity].
  apply Hkick. reflexivity.
Qed.




(** The transverse coordinates and [zeta] that the kick writes back do not
    depend on the flag, on the particle, on the record buffer or on the
    incoming [pzeta_star]. *)
Lemma synchrobeam_kick_same_but_pzeta (m m' : Z)
    (part part' : LocalParticle) (record record' : option RecordStore)
    (i_slice : Z) (q0 p0c : R) (c c' : Coords) (log log' : list Call) :
  same_but_pzeta c c' ->
  same_but_pzeta
    (k_coords (synchrobeam_kick (set_do_beamstrahlung el m) part record
                 i_slice q0 p0c c log))
    (k_coords (synchrobeam_kick (set_do_beamstrahlung el m') part' record'
                 i_slice q0 p0c c' log')).
Proof.
  intros H.
  rewrite !synchrobeam_kick_coords, !kick_locals_set_do_beamstrahlung.
  rewrite (kick_locals_same_but_pzeta i_slice q0 p0c c c' H).
  destruct H as (Hx & Hpx & Hy & Hpy & Hz).
  unfold same_but_pzeta. cbn [x_star px_star y_star py_star zeta_star].
  rewrite Hx, Hpx, Hy, Hpy, Hz. repeat split.
Qed.






End IntensityAndMode.

(** ** Further properties of the kick *)

Section KickAlgebra.

Context {E : Collaborators}.

Variable el : BeamBeamBiGaussian3DData.
Variable i_slice : Z.
Variables q0 p0c : R.

(** The locals depend on the coordinates only through [zeta_star], the
    momenta and the offsets drifted to the collision point. *)
Lemma kick_locals_same_at_CP (c c' : Coords) :
  let zc := zeta_center_star (slices_other_beam el i_slice) in
  zeta_star c' = zeta_star c ->
  x_star c' + px_star c' * (0.5 * (zeta_star c - zc)) =
  x_star c + px_star c * (0.5 * (zeta_star c - zc)) ->
  y_star c' + py_star c' * (0.5 * (zeta_star c - zc)) =
  y_star c + py_star c * (0.5 * (zeta_star c - zc)) ->
  kick_locals el i_slice q0 p0c c' = kick_locals el i_slice q0 p0c c.
Proof.
  intros zc Hz Hx Hy. unfold kick_locals. cbv zeta.
  rewrite Hz. fold zc. rewrite Hx, Hy. reflexivity.
Qed.

(** X9. The kick leaves the position drifted to the collision point where it
    was: [x + px*S] and [y + py*S] are the same before and after.  So the
    locals of a second kick by the same slice are those of the first, and
    two kicks in a row by one slice give twice the transverse kick of one. *)
Theorem kick_keeps_position_at_CP
    (part part2 : LocalParticle) (record record2 : option RecordStore)
    (c : Coords) (log log2 : list Call) :
  let L := kick_locals el i_slice q0 p0c c in
  let c1 := k_coords (synchrobeam_kick el part record i_slice q0 p0c c log) in
  let c2 :=
    k_coords (synchrobeam_kick el part2 record2 i_slice q0 p0c c1 log2) in
  x_star c1 + px_star c1 * S_CP L = x_star c + px_star c * S_CP L /\
  y_star c1 + py_star c1 * S_CP L = y_star c + py_star c * S_CP L /\
  kick_locals el i_slice q0 p0c c1 = L /\
  px_star c2 = px_star c + 2 * Fx_star L /\
  py_star c2 = py_star c + 2 * Fy_star L /\
  x_star c2 = x_star c - 2 * (S_CP L * Fx_star L) /\
  y_star c2 = y_star c - 2 * (S_CP L * Fy_star L).
Proof.
  intros L c1 c2.
  assert (Hx : x_star c1 + px_star c1 * S_CP L =
               x_star c + px_star c * S_CP L).
  { subst c1. rewrite synchrobeam_kick_coords. fold L.
    cbn [x_star px_star]. ring. }
  assert (Hy : y_star c1 + py_star c1 * S_CP L =
               y_star c + py_star c * S_CP L).
  { subst c1. rewrite synchrobeam_kick_coords. fold L.
    cbn [y_star py_star]. ring. }
  assert (HL : kick_locals el i_slice q0 p0c c1 = L).
  { apply kick_locals_same_at_CP; [reflexivity | exact Hx | exact Hy]. }
  split; [exact Hx|]. split; [exact Hy|]. split; [exact HL|].
  subst c2. rewrite synchrobeam_kick_coords. rewrite HL.
  cbn [x_star px_star y_star py_star].
  subst c1. rewrite synchrobeam_kick_coords. fold L.
  cbn [x_star px_star y_star py_star].
  repeat split; ring.
Qed.

(** X11. Across one kick, [pzeta - (px^2 + py^2)/4] changes by the longitudinal
    kick [Fz_star] and by nothing else, counted from the [pzeta] that the
    beamstrahlung branch leaves. *)
Theorem kick_pzeta_balance
    (part : LocalParticle) (record : option RecordStore) (c : Coords)
    (log : list Call) :
  let L := kick_locals el i_slice q0 p0c c in
  let c1 := k_coords (synchrobeam_kick el part record i_slice q0 p0c c log) in
  let pzeta :=
    r_pzeta (beamstrahlung el part record i_slice L (pzeta_star c) []) in
  pzeta_star c1 - (px_star c1 * px_star c1 + py_star c1 * py_star c1) / 4 =
  pzeta - (px_star c * px_star c + py_star c * py_star c) / 4 + Fz_star L.
Proof.
  intros L c1 pzeta. subst c1 pzeta.
  rewrite synchrobeam_kick_coords. fold L.
  cbn [px_star py_star pzeta_star].
  rewrite !beamstrahlung_pzeta.
  set (b := if (do_beamstrahlung el =? 1)%Z then _ else _). clearbody b.
  generalize (Fx_star L) (Fy_star L) (Fz_star L) (px_star c) (py_star c).
  intros. replace 0.5 with (/ 2) by lra. field.
Qed.

(** X12. Where the field solver returns no field, the kick leaves [x], [px],
    [y], [py] alone; what is left is the longitudinal kick of the gradient
    terms, [0.5*Ksl*(Gx*dS_Sig_11 + Gy*dS_Sig_33)], added to [pzeta]. *)
Theorem kick_without_transverse_field
    (part : LocalParticle) (record : option RecordStore) (c : Coords)
    (log : list Call) :
  let L := kick_locals el i_slice q0 p0c c in
  let c1 := k_coords (synchrobeam_kick el part record i_slice q0 p0c c log) in
  Ex L = 0 -> Ey L = 0 ->
  x_star c1 = x_star c /\ px_star c1 = px_star c /\
  y_star c1 = y_star c /\ py_star c1 = py_star c /\
  Fz_star L =
    0.5 * Ksl L * (Gx L * dS_Sig_11_hat_star (sigmas L) +
                   Gy L * dS_Sig_33_hat_star (sigmas L)) /\
  pzeta_star c1 =
    r_pzeta (beamstrahlung el part record i_slice L (pzeta_star c) []) +
    Fz_star L.
Proof.
  intros L c1 HEx HEy.
  assert (HFx : Fx_star L = 0).
  { change (Fx_star L) with
      (Ksl L * Ex L * costheta (sigmas L) - Ksl L * Ey L * sintheta (sigmas L)).
    rewrite HEx, HEy. ring. }
  assert (HFy : Fy_star L = 0).
  { change (Fy_star L) with
      (Ksl L * Ex L * sintheta (sigmas L) + Ksl L * Ey L * costheta (sigmas L)).
    rewrite HEx, HEy. ring. }
  assert (HFz : Fz_star L =
    0.5 * Ksl L * (Gx L * dS_Sig_11_hat_star (sigmas L) +
                   Gy L * dS_Sig_33_hat_star (sigmas L))).
  { change (Fz_star L) with
      (0.5 * (Ksl L * Ex L * dS_x_bar_hat_star L +
              Ksl L * Ey L * dS_y_bar_hat_star L +
              Ksl L * Gx L * dS_Sig_11_hat_star (sigmas L) +
              Ksl L * Gy L * dS_Sig_33_hat_star (sigmas L))).
    rewrite HEx, HEy. ring. }
  subst c1. rewrite synchrobeam_kick_coords. fold L.
  cbn [x_star px_star y_star py_star pzeta_star].
  rewrite !beamstrahlung_pzeta, HFx, HFy.
  repeat split; try ring. exact HFz.
Qed.

(** X13. A particle at the longitudinal centre of the slice is kicked on the
    spot: the collision point is [S = 0], the offset is the plain distance
    to the slice centroid, and the kick changes the momenta but neither [x]
    nor [y]. *)
Theorem kick_at_slice_centre
    (part : LocalParticle) (record : option RecordStore) (c : Coords)
    (log : list Call) :
  let L := kick_locals el i_slice q0 p0c c in
  let sl := slices_other_beam el i_slice in
  let c1 := k_coords (synchrobeam_kick el part record i_slice q0 p0c c log) in
  zeta_star c = zeta_center_star sl ->
  S_CP L = 0 /\
  x_bar_star L = x_star c - x_center_star sl /\
  y_bar_star L = y_star c - y_center_star sl /\
  x_star c1 = x_star c /\ y_star c1 = y_star c.
Proof.
  intros L sl c1 Hz.
  assert (HS : S_CP L = 0).
  { change (S_CP L) with (0.5 * (zeta_star c - zeta_center_star sl)).
    rewrite Hz. ring. }
  split; [exact HS|].
  change (x_bar_star L) with (x_star c + px_star c * S_CP L - x_center_star sl).
  change (y_bar_star L) with (y_star c + py_star c * S_CP L - y_center_star sl).
  subst c1. rewrite synchrobeam_kick_coords. fold L.
  cbn [x_star y_star]. rewrite HS. repeat split; ring.
Qed.

(** X16. The rotation into the diagonal frame and the rotation of the kicks
    back are inverse to each other when [(costheta, sintheta)] is a unit
    vector: rotating the kicks [Fx_star], [Fy_star] like the offset gives
    back the diagonal-frame kicks, and rotating the diagonal-frame offset
    like the kicks gives back the offset. *)
Theorem rotation_round_trip (c : Coords) :
  let L := kick_locals el i_slice q0 p0c c in
  let co := costheta (sigmas L) in
  let si := sintheta (sigmas L) in
  co * co + si * si = 1 ->
  Fx_star L * co + Fy_star L * si = Fx_hat_star L /\
  - Fx_star L * si + Fy_star L * co = Fy_hat_star L /\
  x_bar_hat_star L * co - y_bar_hat_star L * si = x_bar_star L /\
  x_bar_hat_star L * si + y_bar_hat_star L * co = y_bar_star L.
Proof.
  intros L co si H.
  change (Fx_star L) with (Fx_hat_star L * co - Fy_hat_star L * si).
  change (Fy_star L) with (Fx_hat_star L * si + Fy_hat_star L * co).
  change (x_bar_hat_star L) with (x_bar_star L * co + y_bar_star L * si).
  change (y_bar_hat_star L) with (- x_bar_star L * si + y_bar_star L * co).
  repeat split.
  - transitivity (Fx_hat_star L * (co * co + si * si)); [ring | rewrite H; ring].
  - transitivity (Fy_hat_star L * (co * co + si * si)); [ring | rewrite H; ring].
  - transitivity (x_bar_star L * (co * co + si * si)); [ring | rewrite H; ring].
  - transitivity (y_bar_star L * (co * co + si * si)); [ring | rewrite H; ring].
Qed.

(** The squared length of the kick, for a unit [(costheta, sintheta)]. *)
Lemma kick_square_norm (c : Coords) :
  let L := kick_locals el i_slice q0 p0c c in
  costheta (sigmas L) * costheta (sigmas L) +
  sintheta (sigmas L) * sintheta (sigmas L) = 1 ->
  Fx_star L * Fx_star L + Fy_star L * Fy_star L =
  Ksl L * Ksl L * (Ex L * Ex L + Ey L * Ey L).
Proof.
  intros L H.
  change (Fx_star L) with
    (Ksl L * Ex L * costheta (sigmas L) - Ksl L * Ey L * sintheta (sigmas L)).
  change (Fy_star L) with
    (Ksl L * Ex L * sintheta (sigmas L) + Ksl L * Ey L * costheta (sigmas L)).
  transitivity (Ksl L * Ksl L * (Ex L * Ex L + Ey L * Ey L) *
                (costheta (sigmas L) * costheta (sigmas L) +
                 sintheta (sigmas L) * sintheta (sigmas L)));
    [ring | rewrite H; ring].
Qed.

(** X18. The kick magnitude that the stochastic radiation routine receives
    (before the factor [rpp]): for a unit [(costheta, sintheta)],
    [hypot(Fx_star, Fy_star)] is [|Ksl|] times the length of the field
    [(Ex, Ey)]. *)
Theorem radiation_kick_magnitude (c : Coords) :
  let L := kick_locals el i_slice q0 p0c c in
  costheta (sigmas L) * costheta (sigmas L) +
  sintheta (sigmas L) * sintheta (sigmas L) = 1 ->
  hypot (Fx_star L) (Fy_star L) = Rabs (Ksl L) * hypot (Ex L) (Ey L).
Proof.
  intros L H. unfold hypot.
  pose proof (kick_square_norm c H) as HN. fold L in HN. rewrite HN.
  rewrite sqrt_mult_alt by apply Rle_0_sqr.
  f_equal. apply sqrt_Rsqr_abs.
Qed.

(** X17. The product of kick and offset, [Fx*x_bar + Fy*y_bar], is the same in
    the coupled and in the diagonal frame; with a unit
    [(costheta, sintheta)] so are the squared lengths of the kick and of
    the offset, and the squared kick is [Ksl^2 * (Ex^2 + Ey^2)]. *)
Theorem rotation_keeps_products (c : Coords) :
  let L := kick_locals el i_slice q0 p0c c in
  let co := costheta (sigmas L) in
  let si := sintheta (sigmas L) in
  Fx_star L * x_bar_star L + Fy_star L * y_bar_star L =
  Fx_hat_star L * x_bar_hat_star L + Fy_hat_star L * y_bar_hat_star L /\
  (co * co + si * si = 1 ->
   Fx_star L * Fx_star L + Fy_star L * Fy_star L =
   Ksl L * Ksl L * (Ex L * Ex L + Ey L * Ey L) /\
   x_bar_hat_star L * x_bar_hat_star L + y_bar_hat_star L * y_bar_hat_star L =
   x_bar_star L * x_bar_star L + y_bar_star L * y_bar_star L).
Proof.
  intros L co si.
  change (Fx_star L) with (Ksl L * Ex L * co - Ksl L * Ey L * si).
  change (Fy_star L) with (Ksl L * Ex L * si + Ksl L * Ey L * co).
  change (Fx_hat_star L) with (Ksl L * Ex L).
  change (Fy_hat_star L) with (Ksl L * Ey L).
  change (x_bar_hat_star L) with (x_bar_star L * co + y_bar_star L * si).
  change (y_bar_hat_star L) with (- x_bar_star L * si + y_bar_star L * co).
  split; [ring|]. intros H. split.
  - transitivity (Ksl L * Ksl L * (Ex L * Ex L + Ey L * Ey L) *
                  (co * co + si * si)); [ring | rewrite H; ring].
  - transitivity ((x_bar_star L * x_bar_star L + y_bar_star L * y_bar_star L) *
                  (co * co + si * si)); [ring | rewrite H; ring].
Qed.

(** The locals for the charge [k*q0] against those for [q0]. *)
Lemma kick_locals_scaled_charge (k : R) (c : Coords) :
  let L := kick_locals el i_slice q0 p0c c in
  let Lk := kick_locals el i_slice (k * q0) p0c c in
  S_CP Lk = S_CP L /\ sigmas Lk = sigmas L /\
  Ex Lk = Ex L /\ Ey Lk = Ey L /\ Gx Lk = Gx L /\ Gy Lk = Gy L /\
  Ksl Lk = k * Ksl L /\
  Fx_star Lk = k * Fx_star L /\
  Fy_star Lk = k * Fy_star L /\
  Fz_star Lk = k * Fz_star L.
Proof.
  intros L Lk.
  assert (HK : Ksl Lk = k * Ksl L).
  { cbn [Lk L kick_locals Ksl]. unfold Rdiv. ring. }
  split; [reflexivity|]. split; [reflexivity|].
  split; [reflexivity|]. split; [reflexivity|].
  split; [reflexivity|]. split; [reflexivity|].
  split; [exact HK|].
  change (Fx_star Lk) with
    (Ksl Lk * Ex L * costheta (sigmas L) - Ksl Lk * Ey L * sintheta (sigmas L)).
  change (Fy_star Lk) with
    (Ksl Lk * Ex L * sintheta (sigmas L) + Ksl Lk * Ey L * costheta (sigmas L)).
  change (Fz_star Lk) with
    (0.5 * (Ksl Lk * Ex L * dS_x_bar_hat_star L +
            Ksl Lk * Ey L * dS_y_bar_hat_star L +
            Ksl Lk * Gx L * dS_Sig_11_hat_star (sigmas L) +
            Ksl Lk * Gy L * dS_Sig_33_hat_star (sigmas L))).
  change (Fx_star L) with
    (Ksl L * Ex L * costheta (sigmas L) - Ksl L * Ey L * sintheta (sigmas L)).
  change (Fy_star L) with
    (Ksl L * Ex L * sintheta (sigmas L) + Ksl L * Ey L * costheta (sigmas L)).
  change (Fz_star L) with
    (0.5 * (Ksl L * Ex L * dS_x_bar_hat_star L +
            Ksl L * Ey L * dS_y_bar_hat_star L +
            Ksl L * Gx L * dS_Sig_11_hat_star (sigmas L) +
            Ksl L * Gy L * dS_Sig_33_hat_star (sigmas L))).
  rewrite HK. repeat split; ring.
Qed.

(** X14. The kick is linear in the charge of the particle: with [k*q0] for [q0]
    the geometry and the fields are the same and [Ksl], [Fx_star],
    [Fy_star], [Fz_star] are [k] times what they were; an opposite charge
    gets the opposite kick. *)
Theorem kick_is_linear_in_charge (k : R) (c : Coords) :
  let L := kick_locals el i_slice q0 p0c c in
  let Lk := kick_locals el i_slice (k * q0) p0c c in
  S_CP Lk = S_CP L /\ sigmas Lk = sigmas L /\
  Ex Lk = Ex L /\ Ey Lk = Ey L /\ Gx Lk = Gx L /\ Gy Lk = Gy L /\
  Ksl Lk = k * Ksl L /\
  Fx_star Lk = k * Fx_star L /\
  Fy_star Lk = k * Fy_star L /\
  Fz_star Lk = k * Fz_star L.
Proof.
  intros L Lk.
  assert (HK : Ksl Lk = k * Ksl L).
  { cbn [Lk L kick_locals Ksl]. unfold Rdiv. ring. }
  split; [reflexivity|]. split; [reflexivity|].
  split; [reflexivity|]. split; [reflexivity|].
  split; [reflexivity|]. split; [reflexivity|].
  split; [exact HK|].
  change (Fx_star Lk) with
    (Ksl Lk * Ex L * costheta (sigmas L) - Ksl Lk * Ey L * sintheta (sigmas L)).
  change (Fy_star Lk) with
    (Ksl Lk * Ex L * sintheta (sigmas L) + Ksl Lk * Ey L * costheta (sigmas L)).
  change (Fz_star Lk) with
    (0.5 * (Ksl Lk * Ex L * dS_x_bar_hat_star L +
            Ksl Lk * Ey L * dS_y_bar_hat_star L +
            Ksl Lk * Gx L * dS_Sig_11_hat_star (sigmas L) +
            Ksl Lk * Gy L * dS_Sig_33_hat_star (sigmas L))).
  change (Fx_star L) with
    (Ksl L * Ex L * costheta (sigmas L) - Ksl L * Ey L * sintheta (sigmas L)).
  change (Fy_star L) with
    (Ksl L * Ex L * sintheta (sigmas L) + Ksl L * Ey L * costheta (sigmas L)).
  change (Fz_star L) with
    (0.5 * (Ksl L * Ex L * dS_x_bar_hat_star L +
            Ksl L * Ey L * dS_y_bar_hat_star L +
            Ksl L * Gx L * dS_Sig_11_hat_star (sigmas L) +
            Ksl L * Gy L * dS_Sig_33_hat_star (sigmas L))).
  rewrite HK. repeat split; ring.
Qed.

(** X15. With nonzero constants and a nonzero reference momentum, the speed of
    light and one elementary charge cancel in the force scale:
    [Ksl = num_part_slice * e * q0_bb * q0 / p0c]. *)
Theorem Ksl_in_lowest_terms (c : Coords) :
  QELEM <> 0 -> C_LIGHT <> 0 -> p0c <> 0 ->
  Ksl (kick_locals el i_slice q0 p0c c) =
  num_particles (slices_other_beam el i_slice) * QELEM * other_beam_q0 el * q0 /
  p0c.
Proof.
  intros He Hc Hp. cbn [kick_locals Ksl]. field. repeat split; assumption.
Qed.

End KickAlgebra.

(** ** Further properties of the slice loop *)

Section LoopStructure.

Context {E : Collaborators}.

Variable el : BeamBeamBiGaussian3DData.

Lemma same_but_pzeta_eq (c c' : Coords) :
  same_but_pzeta c c' -> pzeta_star c = pzeta_star c' -> c = c'.
Proof.
  destruct c, c'. unfold same_but_pzeta.
  cbn [x_star px_star y_star py_star zeta_star pzeta_star].
  intros (-> & -> & -> & -> & ->) ->. reflexivity.
Qed.




(** The loop body on a slice that fails the test. *)
Lemma slice_iteration_skipped (q0 p0c : R) (i_slice : Z) (st : TrackState) :
  ~ 2 < num_macroparticles (slices_other_beam el i_slice) ->
  slice_iteration el q0 p0c i_slice st =
  mkTrack (tl_part st) (tl_record st)
    (with_pzeta (tl_coords st) (LocalParticle_get_pzeta (tl_part st)))
    (LocalParticle_get_delta (tl_part st)) (tl_log st).
Proof.
  intros H. unfold slice_iteration.
  destruct (Rlt_dec 2 _); [contradiction | reflexivity].
Qed.




Lemma sparse_loop (q0 p0c : R) (n : nat) :
  forall (i_slice : Z) (st : TrackState),
    (forall j : Z,
        (i_slice <= j < i_slice + Z.of_nat n)%Z ->
        num_macroparticles (slices_other_beam el j) <= 2) ->
    let st' := slice_loop el q0 p0c n i_slice st in
    tl_log st' = tl_log st /\ tl_part st' = tl_part st /\
    tl_record st' = tl_record st /\
    same_but_pzeta (tl_coords st') (tl_coords st).
Proof.
  induction n as [|n IH]; intros i_slice st H; cbn [slice_loop].
  - repeat split.
  - assert (Hi : ~ 2 < num_macroparticles (slices_other_beam el i_slice)).
    { specialize (H i_slice ltac:(lia)). lra. }
    rewrite (slice_iteration_skipped q0 p0c i_slice st Hi).
    specialize (IH (i_slice + 1)%Z
      (mkTrack (tl_part st) (tl_record st)
         (with_pzeta (tl_coords st) (LocalParticle_get_pzeta (tl_part st)))
         (LocalParticle_get_delta (tl_part st)) (tl_log st))).
    destruct IH as (Hl & Hp & Hr & Hc); [intros j Hj; apply H; lia|].
    split; [exact Hl|]. split; [exact Hp|]. split; [exact Hr|]. exact Hc.
Qed.

(** X2. When no slice of the table has more than two macroparticles (an empty
    table, [N_slices <= 0], included), the driver's loop makes no call and
    leaves the particle, the record buffer and [x], [px], [y], [py], [zeta]
    as the boost left them. *)
Theorem table_of_sparse_slices_is_skipped (part : LocalParticle) :
  (forall j : Z,
      (0 <= j < num_slices_other_beam el)%Z ->
      num_macroparticles (slices_other_beam el j) <= 2) ->
  let st0 := boosted_state el part in
  let st := after_slices el part in
  tl_log st = [] /\ tl_part st = tl_part st0 /\
  tl_record st = tl_record st0 /\
  same_but_pzeta (tl_coords st) (tl_coords st0).
Proof.
  intros H st0 st. subst st. unfold after_slices.
  apply (sparse_loop (LocalParticle_get_q0 part) (LocalParticle_get_p0c part)
           (Z.to_nat (num_slices_other_beam el)) 0%Z st0).
  intros j Hj. apply H. lia.
Qed.

Lemma slice_iteration_record (q0 p0c : R) (i_slice : Z) (st : TrackState) :
  do_beamstrahlung el <> 1%Z ->
  Forall not_synrad_call (tl_log st) ->
  let st' := slice_iteration el q0 p0c i_slice st in
  tl_record st' = tl_record st /\ Forall not_synrad_call (tl_log st').
Proof.
  intros Hm Hlog st'. subst st'. unfold slice_iteration.
  destruct (Rlt_dec 2 _); cbn [tl_record tl_log]; [|split; [reflexivity | exact Hlog]].
  unfold synchrobeam_kick, beamstrahlung. cbn [k_record k_log].
  apply Z.eqb_neq in Hm. rewrite Hm.
  destruct (do_beamstrahlung el =? 2)%Z; cbn [r_record r_log];
    (split; [reflexivity|]); repeat (apply Forall_app; split);
    try exact Hlog; repeat constructor.
Qed.

Lemma slice_loop_record (q0 p0c : R) (n : nat) :
  do_beamstrahlung el <> 1%Z ->
  forall (i_slice : Z) (st : TrackState),
    Forall not_synrad_call (tl_log st) ->
    let st' := slice_loop el q0 p0c n i_slice st in
    tl_record st' = tl_record st /\ Forall not_synrad_call (tl_log st').
Proof.
  intros Hm. induction n as [|n IH]; intros i_slice st Hlog; cbn [slice_loop].
  - split; [reflexivity | exact Hlog].
  - destruct (slice_iteration_record q0 p0c i_slice st Hm Hlog) as (Hr & Hl).
    destruct (IH (i_slice + 1)%Z _ Hl) as (Hr' & Hl').
    split; [now rewrite Hr', Hr | exact Hl'].
Qed.

(** X6. Only the stochastic mode reaches the record buffer: when
    [do_beamstrahlung] is not 1, the driver's loop never calls [synrad] and
    the record buffer after the loop is the one the driver fetched. *)
Theorem record_is_written_in_mode_1_only (part : LocalParticle) :
  do_beamstrahlung el <> 1%Z ->
  tl_record (after_slices el part) =
    BeamBeamBiGaussian3DData_getp_internal_record el part /\
  Forall not_synrad_call (tl_log (after_slices el part)).
Proof.
  intros Hm. unfold after_slices.
  apply (slice_loop_record (LocalParticle_get_q0 part)
           (LocalParticle_get_p0c part)
           (Z.to_nat (num_slices_other_beam el)) Hm 0%Z
           (boosted_state el part)).
  constructor.
Qed.

Lemma synchrobeam_kick_off (part : LocalParticle)
    (record : option RecordStore) (i_slice : Z) (q0 p0c : R) (c : Coords)
    (log : list Call) :
  do_beamstrahlung el <> 1%Z -> do_beamstrahlung el <> 2%Z ->
  synchrobeam_kick el part record i_slice q0 p0c c log =
  synchrobeam_kick (set_do_beamstrahlung el 0) part record i_slice q0 p0c c
    log.
Proof.
  intros H1 H2. unfold synchrobeam_kick, beamstrahlung.
  apply Z.eqb_neq in H1. apply Z.eqb_neq in H2.
  rewrite H1, H2. reflexivity.
Qed.

(** X7. Every value of [do_beamstrahlung] other than 1 and 2 means off: the
    slice loop then does exactly what it does with the flag at 0, and the
    only calls it makes are kicks. *)
Theorem other_flag_values_mean_off (q0 p0c : R) (n : nat) :
  do_beamstrahlung el <> 1%Z -> do_beamstrahlung el <> 2%Z ->
  forall (i_slice : Z) (st : TrackState),
    slice_loop el q0 p0c n i_slice st =
    slice_loop (set_do_beamstrahlung el 0) q0 p0c n i_slice st /\
    (Forall is_kick_call (tl_log st) ->
     Forall is_kick_call (tl_log (slice_loop el q0 p0c n i_slice st))).
Proof.
  intros H1 H2. induction n as [|n IH]; intros i_slice st; cbn [slice_loop].
  - split; [reflexivity | trivial].
  - assert (Hit : slice_iteration el q0 p0c i_slice st =
                  slice_iteration (set_do_beamstrahlung el 0) q0 p0c i_slice st).
    { unfold slice_iteration. cbn [set_do_beamstrahlung slices_other_beam].
      destruct (Rlt_dec 2 _); [|reflexivity].
      now rewrite (synchrobeam_kick_off _ _ _ _ _ _ _ H1 H2). }
    destruct (IH (i_slice + 1)%Z (slice_iteration el q0 p0c i_slice st))
      as (Heq & Hlog).
    split; [now rewrite Heq, Hit|].
    intros Hst. apply Hlog. unfold slice_iteration.
    destruct (Rlt_dec 2 _); cbn [tl_log]; [|exact Hst].
    unfold synchrobeam_kick, beamstrahlung. cbn [k_log].
    apply Z.eqb_neq in H1. apply Z.eqb_neq in H2. rewrite H1, H2.
    cbn [r_log]. apply Forall_app. split; [exact Hst | repeat constructor].
Qed.

Lemma slice_iteration_transverse (m m' : Z) (q0 p0c : R) (i_slice : Z)
    (s s' : TrackState) :
  same_but_pzeta (tl_coords s) (tl_coords s') ->
  same_but_pzeta
    (tl_coords (slice_iteration (set_do_beamstrahlung el m) q0 p0c i_slice s))
    (tl_coords (slice_iteration (set_do_beamstrahlung el m') q0 p0c i_slice s')).
Proof.
  intros H. unfold slice_iteration.
  cbn [set_do_beamstrahlung slices_other_beam].
  destruct (Rlt_dec 2 _); cbn [tl_coords].
  - apply synchrobeam_kick_same_but_pzeta. exact H.
  - exact H.
Qed.

(** X4. The transverse motion through the slice loop does not read the energy
    side of the state: two runs that start with the same [x], [px], [y],
    [py], [zeta] end with the same [x], [px], [y], [py], [zeta], whatever
    their beamstrahlung flags, particles, record buffers, logs and [pzeta]
    are. *)
Theorem transverse_motion_ignores_energy_state
    (m m' : Z) (q0 p0c : R) (n : nat) :
  forall (i_slice : Z) (s s' : TrackState),
    same_but_pzeta (tl_coords s) (tl_coords s') ->
    same_but_pzeta
      (tl_coords (slice_loop (set_do_beamstrahlung el m) q0 p0c n i_slice s))
      (tl_coords (slice_loop (set_do_beamstrahlung el m') q0 p0c n i_slice s')).
Proof.
  induction n as [|n IH]; intros i_slice s s' H; cbn [slice_loop].
  - exact H.
  - apply IH, slice_iteration_transverse, H.
Qed.

Lemma slice_iteration_in_sync (q0 p0c : R) (i_slice : Z) (st : TrackState) :
  (forall (p : LocalParticle) (v : R),
      LocalParticle_get_pzeta (LocalParticle_update_pzeta p v) = v) ->
  let st' := slice_iteration el q0 p0c i_slice st in
  pzeta_star (tl_coords st') = LocalParticle_get_pzeta (tl_part st').
Proof.
  intros Hsync st'. subst st'. unfold slice_iteration.
  destruct (Rlt_dec 2 _); cbn [tl_coords tl_part].
  - now rewrite Hsync.
  - reflexivity.
Qed.

Lemma slice_loop_in_sync (q0 p0c : R) (n : nat) :
  (forall (p : LocalParticle) (v : R),
      LocalParticle_get_pzeta (LocalParticle_update_pzeta p v) = v) ->
  forall (i_slice : Z) (st : TrackState),
    pzeta_star (tl_coords st) = LocalParticle_get_pzeta (tl_part st) ->
    pzeta_star (tl_coords (slice_loop el q0 p0c n i_slice st)) =
    LocalParticle_get_pzeta (tl_part (slice_loop el q0 p0c n i_slice st)).
Proof.
  intros Hsync. induction n as [|n IH]; intros i st Hst; cbn [slice_loop].
  - exact Hst.
  - apply IH. now apply slice_iteration_in_sync.
Qed.

Lemma boosted_state_in_sync (part : LocalParticle) :
  (forall (p : LocalParticle) (v : R),
      LocalParticle_get_pzeta (LocalParticle_update_pzeta p v) = v) ->
  pzeta_star (tl_coords (boosted_state el part)) =
  LocalParticle_get_pzeta (tl_part (boosted_state el part)).
Proof.
  intros Hsync. unfold boosted_state. cbn [tl_coords tl_part].
  now rewrite Hsync.
Qed.

(** X5. The driver keeps its local [pzeta] and the particle's [pzeta] equal:
    when the accessors return the [pzeta] last written, the two agree on
    entry to the slice loop, after every pass of its body and so after the
    loop, in every mode. *)
Theorem local_pzeta_is_the_particle_pzeta (part : LocalParticle) :
  (forall (p : LocalParticle) (v : R),
      LocalParticle_get_pzeta (LocalParticle_update_pzeta p v) = v) ->
  pzeta_star (tl_coords (boosted_state el part)) =
    LocalParticle_get_pzeta (tl_part (boosted_state el part)) /\
  (forall (q0 p0c : R) (i_slice : Z) (st : TrackState),
      pzeta_star (tl_coords (slice_iteration el q0 p0c i_slice st)) =
      LocalParticle_get_pzeta (tl_part (slice_iteration el q0 p0c i_slice st))) /\
  pzeta_star (tl_coords (after_slices el part)) =
    LocalParticle_get_pzeta (tl_part (after_slices el part)).
Proof.
  intros Hsync.
  split; [now apply boosted_state_in_sync|]. split.
  - intros q0 p0c i_slice st. now apply slice_iteration_in_sync.
  - unfold after_slices. apply slice_loop_in_sync; [exact Hsync|].
    now apply boosted_state_in_sync.
Qed.

(** X19. With nothing to kick the driver is the two frame transforms in a
    row.  When no slice has more than two macroparticles and the accessors
    return the [pzeta] last written, the six coordinates the driver stores
    are the inverse frame transform of the forward frame transform of the
    particle's own six coordinates; no call is made and the record buffer is
    the one the driver fetched. *)
Theorem driver_without_kicks_is_the_frame_round_trip (part : LocalParticle) :
  (forall j : Z,
      (0 <= j < num_slices_other_beam el)%Z ->
      num_macroparticles (slices_other_beam el j) <= 2) ->
  (forall (p : LocalParticle) (v : R),
      LocalParticle_get_pzeta (LocalParticle_update_pzeta p v) = v) ->
  let shift_x := ref_shift_x el + other_beam_shift_x el in
  let shift_px := ref_shift_px el + other_beam_shift_px el in
  let shift_y := ref_shift_y el + other_beam_shift_y el in
  let shift_py := ref_shift_py el + other_beam_shift_py el in
  let shift_zeta := ref_shift_zeta el + other_beam_shift_zeta el in
  let shift_pzeta := ref_shift_pzeta el + other_beam_shift_pzeta el in
  let c :=
    mkCoords (LocalParticle_get_x part) (LocalParticle_get_px part)
      (LocalParticle_get_y part) (LocalParticle_get_py part)
      (LocalParticle_get_zeta part) (LocalParticle_get_pzeta part) in
  let st := BeamBeamBiGaussian3D_track_local_particle el part in
  tl_coords st =
    change_back_ref_frame_and_subtract_dipolar_coordinates
      (change_ref_frame_coordinates c
         shift_x shift_px shift_y shift_py shift_zeta shift_pzeta
         (_sin_phi el) (_cos_phi el) (_tan_phi el)
         (_sin_alpha el) (_cos_alpha el))
      shift_x shift_px shift_y shift_py shift_zeta shift_pzeta
      (post_subtract_x el) (post_subtract_px el)
      (post_subtract_y el) (post_subtract_py el)
      (post_subtract_zeta el) (post_subtract_pzeta el)
      (_sin_phi el) (_cos_phi el) (_tan_phi el)
      (_sin_alpha el) (_cos_alpha el) /\
  tl_log st = [] /\
  tl_record st = BeamBeamBiGaussian3DData_getp_internal_record el part.
Proof.
  intros Hsparse Hsync shift_x shift_px shift_y shift_py shift_zeta shift_pzeta
    c st.
  destruct (sparse_loop (LocalParticle_get_q0 part) (LocalParticle_get_p0c part)
              (Z.to_nat (num_slices_other_beam el)) 0%Z (boosted_state el part))
    as (Hlog & Hpart & Hrec & Hc); [intros j Hj; apply Hsparse; lia|].
  change (slice_loop el (LocalParticle_get_q0 part) (LocalParticle_get_p0c part)
            (Z.to_nat (num_slices_other_beam el)) 0%Z (boosted_state el part))
    with (after_slices el part) in Hlog, Hpart, Hrec, Hc.
  assert (Hpz : pzeta_star (tl_coords (after_slices el part)) =
                pzeta_star (tl_coords (boosted_state el part))).
  { unfold after_slices at 1.
    rewrite (slice_loop_in_sync _ _ _ Hsync 0%Z (boosted_state el part)
               (boosted_state_in_sync part Hsync)).
    change (slice_loop el (LocalParticle_get_q0 part)
              (LocalParticle_get_p0c part)
              (Z.to_nat (num_slices_other_beam el)) 0%Z
              (boosted_state el part))
      with (after_slices el part).
    rewrite Hpart. symmetry. now apply boosted_state_in_sync. }
  assert (Heq : tl_coords (after_slices el part) =
                tl_coords (boosted_state el part))
    by (apply same_but_pzeta_eq; assumption).
  subst st. unfold BeamBeamBiGaussian3D_track_local_particle.
  cbn [tl_coords tl_log tl_record].
  rewrite Heq, Hlog, Hrec. repeat split.
Qed.

End LoopStructure.

(** ** Undoing a kick, and tables without charge *)

Section InverseAndEmpty.

Context {E : Collaborators}.

Variable el : BeamBeamBiGaussian3DData.

(** With the flag off the beamstrahlung branch returns [pzeta] as it got
    it. *)
Lemma beamstrahlung_off_pzeta (part : LocalParticle)
    (record : option RecordStore) (i_slice : Z) (L : KickLocals) (pzeta : R)
    (log : list Call) :
  do_beamstrahlung el <> 1%Z -> do_beamstrahlung el <> 2%Z ->
  r_pzeta (beamstrahlung el part record i_slice L pzeta log) = pzeta.
Proof.
  intros H1 H2. rewrite beamstrahlung_pzeta.
  apply Z.eqb_neq in H1. apply Z.eqb_neq in H2. now rewrite H1, H2.
Qed.

(** X10. With beamstrahlung off, the kick by a slice is undone by the kick of
    the same slice on a particle of the opposite charge: all six coordinates
    come back. *)
Theorem opposite_charge_undoes_the_kick
    (part part2 : LocalParticle) (record record2 : option RecordStore)
    (i_slice : Z) (q0 p0c : R) (c : Coords) (log log2 : list Call) :
  do_beamstrahlung el <> 1%Z -> do_beamstrahlung el <> 2%Z ->
  let c1 := k_coords (synchrobeam_kick el part record i_slice q0 p0c c log) in
  k_coords (synchrobeam_kick el part2 record2 i_slice (- q0) p0c c1 log2) = c.
Proof.
  intros H1 H2 c1.
  set (L := kick_locals el i_slice q0 p0c c).
  assert (Hc1 : c1 =
    mkCoords (x_star c - S_CP L * Fx_star L) (px_star c + Fx_star L)
      (y_star c - S_CP L * Fy_star L) (py_star c + Fy_star L) (zeta_star c)
      (pzeta_star c + Fz_star L +
       0.5 * (Fx_star L * (px_star c + 0.5 * Fx_star L) +
              Fy_star L * (py_star c + 0.5 * Fy_star L)))).
  { subst c1. rewrite synchrobeam_kick_coords. fold L.
    now rewrite (beamstrahlung_off_pzeta _ _ _ _ _ _ H1 H2). }
  assert (HL1 : kick_locals el i_slice q0 p0c c1 = L).
  { apply kick_locals_same_at_CP; rewrite Hc1;
      cbn [x_star px_star y_star py_star zeta_star];
      [reflexivity | change (0.5 * (zeta_star c - zeta_center_star
                                      (slices_other_beam el i_slice)))
                       with (S_CP L); ring ..]. }
  destruct (kick_locals_scaled_charge el i_slice q0 p0c (-1) c1)
    as (HS & _ & _ & _ & _ & _ & _ & HFx & HFy & HFz).
  rewrite HL1 in HS, HFx, HFy, HFz.
  replace (-1 * q0) with (- q0) in HS, HFx, HFy, HFz by ring.
  rewrite synchrobeam_kick_coords.
  rewrite (beamstrahlung_off_pzeta _ _ _ _ _ _ H1 H2).
  rewrite HS, HFx, HFy, HFz, Hc1.
  cbn [x_star px_star y_star py_star zeta_star pzeta_star].
  destruct c as [x px y py zeta pzeta].
  cbn [x_star px_star y_star py_star zeta_star pzeta_star].
  f_equal; try ring.
  replace 0.5 with (/ 2) by lra. field.
Qed.

Lemma zero_intensity_forces (i_slice : Z) (q0 p0c : R) (c : Coords) :
  num_particles (slices_other_beam el i_slice) = 0 ->
  let L := kick_locals el i_slice q0 p0c c in
  Fx_star L = 0 /\ Fy_star L = 0 /\ Fz_star L = 0.
Proof.
  intros H L.
  pose proof (Ksl_zero_intensity el i_slice q0 p0c c H) as HK. fold L in HK.
  change (Fx_star L) with
    (Ksl L * Ex L * costheta (sigmas L) - Ksl L * Ey L * sintheta (sigmas L)).
  change (Fy_star L) with
    (Ksl L * Ex L * sintheta (sigmas L) + Ksl L * Ey L * costheta (sigmas L)).
  change (Fz_star L) with
    (0.5 * (Ksl L * Ex L * dS_x_bar_hat_star L +
            Ksl L * Ey L * dS_y_bar_hat_star L +
            Ksl L * Gx L * dS_Sig_11_hat_star (sigmas L) +
            Ksl L * Gy L * dS_Sig_33_hat_star (sigmas L))).
  rewrite HK. repeat split; ring.
Qed.

Lemma chargeless_iteration (q0 p0c : R) (i_slice : Z) (st : TrackState) :
  num_particles (slices_other_beam el i_slice) = 0 ->
  let st' := slice_iteration el q0 p0c i_slice st in
  same_but_pzeta (tl_coords st') (tl_coords st) /\
  (do_beamstrahlung el <> 1%Z -> do_beamstrahlung el <> 2%Z ->
   pzeta_star (tl_coords st') = LocalParticle_get_pzeta (tl_part st) /\
   (2 < num_macroparticles (slices_other_beam el i_slice) ->
    tl_part st' =
    LocalParticle_update_pzeta (tl_part st)
      (LocalParticle_get_pzeta (tl_part st))) /\
   (~ 2 < num_macroparticles (slices_other_beam el i_slice) ->
    tl_part st' = tl_part st)).
Proof.
  intros H st'. subst st'. unfold slice_iteration.
  destruct (Rlt_dec 2 _) as [Hk|Hk]; cbn [tl_coords tl_part].
  - set (c := with_pzeta (tl_coords st) (LocalParticle_get_pzeta (tl_part st))).
    destruct (zero_intensity_forces i_slice q0 p0c c H) as (HFx & HFy & HFz).
    rewrite synchrobeam_kick_coords, HFx, HFy, HFz.
    split.
    + unfold same_but_pzeta.
      cbn [c with_pzeta x_star px_star y_star py_star zeta_star].
      repeat split; ring.
    + intros H1 H2.
      rewrite (beamstrahlung_off_pzeta _ _ _ _ _ _ H1 H2).
      assert (Hp : pzeta_star c + 0 +
                   0.5 * (0 * (px_star c + 0.5 * 0) + 0 * (py_star c + 0.5 * 0)) =
                   LocalParticle_get_pzeta (tl_part st))
        by (cbn [c with_pzeta pzeta_star]; ring).
      cbn [pzeta_star]. rewrite Hp.
      split; [reflexivity|]. split; [|contradiction].
      intros _. unfold synchrobeam_kick, beamstrahlung.
      apply Z.eqb_neq in H1. apply Z.eqb_neq in H2. rewrite H1, H2.
      reflexivity.
  - split; [repeat split|]. intros _ _.
    split; [reflexivity|]. split; [contradiction | reflexivity].
Qed.

Lemma chargeless_loop (q0 p0c : R) (n : nat) :
  forall (i_slice : Z) (st : TrackState),
    (forall j : Z,
        (i_slice <= j < i_slice + Z.of_nat n)%Z ->
        num_particles (slices_other_beam el j) = 0) ->
    let st' := slice_loop el q0 p0c n i_slice st in
    same_but_pzeta (tl_coords st') (tl_coords st) /\
    (do_beamstrahlung el <> 1%Z -> do_beamstrahlung el <> 2%Z ->
     (forall (p : LocalParticle) (v : R),
         LocalParticle_get_pzeta (LocalParticle_update_pzeta p v) = v) ->
     pzeta_star (tl_coords st) = LocalParticle_get_pzeta (tl_part st) ->
     pzeta_star (tl_coords st') = pzeta_star (tl_coords st) /\
     LocalParticle_get_pzeta (tl_part st') = pzeta_star (tl_coords st)).
Proof.
  induction n as [|n IH]; intros i_slice st H; cbn [slice_loop].
  - split; [repeat split|]. intros _ _ _ Hs. split; [reflexivity | now rewrite Hs].
  - assert (Hi : num_particles (slices_other_beam el i_slice) = 0)
      by (apply H; lia).
    destruct (chargeless_iteration q0 p0c i_slice st Hi) as (Hc & Hoff).
    destruct (IH (i_slice + 1)%Z (slice_iteration el q0 p0c i_slice st))
      as (Hc' & Hoff'); [intros j Hj; apply H; lia|].
    split.
    + destruct Hc as (a1 & a2 & a3 & a4 & a5).
      destruct Hc' as (b1 & b2 & b3 & b4 & b5).
      unfold same_but_pzeta.
      rewrite b1, b2, b3, b4, b5, a1, a2, a3, a4, a5. repeat split.
    + intros H1 H2 Hsync Hs.
      destruct (Hoff H1 H2) as (Hpz & Hk & Hnk).
      assert (Hpart : LocalParticle_get_pzeta
                        (tl_part (slice_iteration el q0 p0c i_slice st)) =
                      LocalParticle_get_pzeta (tl_part st)).
      { destruct (Rlt_dec 2 (num_macroparticles (slices_other_beam el i_slice)))
          as [Hlt|Hlt].
        - rewrite (Hk Hlt). apply Hsync.
        - now rewrite (Hnk Hlt). }
      destruct (Hoff' H1 H2 Hsync) as (Hz' & Hp').
      { now rewrite Hpz, Hpart. }
      rewrite Hz', Hp', Hpz, Hs. split; reflexivity.
Qed.

(** X3. A table of slices without charge is transparent.  When every slice has
    [num_particles = 0], the slice loop returns [x], [px], [y], [py],
    [zeta] as the boost left them, in every mode; with beamstrahlung off and
    accessors that return the [pzeta] last written, it returns all six
    coordinates as the boost left them. *)
Theorem chargeless_table_is_transparent (part : LocalParticle) :
  (forall j : Z,
      (0 <= j < num_slices_other_beam el)%Z ->
      num_particles (slices_other_beam el j) = 0) ->
  let st0 := boosted_state el part in
  let st := after_slices el part in
  same_but_pzeta (tl_coords st) (tl_coords st0) /\
  (do_beamstrahlung el <> 1%Z -> do_beamstrahlung el <> 2%Z ->
   (forall (p : LocalParticle) (v : R),
       LocalParticle_get_pzeta (LocalParticle_update_pzeta p v) = v) ->
   tl_coords st = tl_coords st0).
Proof.
  intros H st0 st.
  destruct (chargeless_loop (LocalParticle_get_q0 part)
              (LocalParticle_get_p0c part)
              (Z.to_nat (num_slices_other_beam el)) 0%Z st0)
    as (Hc & Hoff); [intros j Hj; apply H; lia|].
  change (slice_loop el (LocalParticle_get_q0 part)
            (LocalParticle_get_p0c part)
            (Z.to_nat (num_slices_other_beam el)) 0%Z st0)
    with st in Hc, Hoff.
  split; [exact Hc|].
  intros H1 H2 Hsync.
  destruct (Hoff H1 H2 Hsync) as (Hpz & _).
  { subst st0. unfold boosted_state. cbn [tl_coords tl_part].
    now rewrite Hsync. }
  apply same_but_pzeta_eq; assumption.
Qed.



End InverseAndEmpty.

(** ** Runs on explicit inputs *)

(** The loop body on a slice that passes the test. *)
Lemma slice_iteration_kicked {E : Collaborators}
    (el : BeamBeamBiGaussian3DData) (q0 p0c : R)
    (i_slice : Z) (st : TrackState) :
  2 < num_macroparticles (slices_other_beam el i_slice) ->
  slice_iteration el q0 p0c i_slice st =
  let c := with_pzeta (tl_coords st) (LocalParticle_get_pzeta (tl_part st)) in
  let k :=
    synchrobeam_kick el (tl_part st) (tl_record st) i_slice q0 p0c c
      (tl_log st) in
  mkTrack (LocalParticle_update_pzeta (k_part k) (pzeta_star (k_coords k)))
    (k_record k) (k_coords k) (LocalParticle_get_delta (tl_part st))
    (k_log k).
Proof.
  intros H. unfold slice_iteration.
  destruct (Rlt_dec 2 _); [reflexivity | contradiction].
Qed.

(** With the stand-in collaborators the kick components are the force scale
    times the drifted offset, and there is no longitudinal kick. *)
Lemma lens_forces (el : BeamBeamBiGaussian3DData) (i_slice : Z)
    (q0 p0c : R) (c : Coords) :
  let L := @kick_locals thin_lens el i_slice q0 p0c c in
  let sl := slices_other_beam el i_slice in
  let S := 0.5 * (zeta_star c - zeta_center_star sl) in
  S_CP L = S /\
  Fx_star L = Ksl L * (x_star c + px_star c * S - x_center_star sl) /\
  Fy_star L = Ksl L * (y_star c + py_star c * S - y_center_star sl) /\
  Fz_star L = 0.
Proof.
  intros L sl S. split; [reflexivity|].
  change (Fx_star L) with
    (Ksl L * Ex L * costheta (sigmas L) - Ksl L * Ey L * sintheta (sigmas L)).
  change (Fy_star L) with
    (Ksl L * Ex L * sintheta (sigmas L) + Ksl L * Ey L * costheta (sigmas L)).
  change (Fz_star L) with
    (0.5 * (Ksl L * Ex L * dS_x_bar_hat_star L +
            Ksl L * Ey L * dS_y_bar_hat_star L +
            Ksl L * Gx L * dS_Sig_11_hat_star (sigmas L) +
            Ksl L * Gy L * dS_Sig_33_hat_star (sigmas L))).
  change (costheta (sigmas L)) with 1.
  change (sintheta (sigmas L)) with 0.
  change (dS_Sig_11_hat_star (sigmas L)) with 0.
  change (dS_Sig_33_hat_star (sigmas L)) with 0.
  change (Ex L) with (x_bar_star L * 1 + y_bar_star L * 0).
  change (Ey L) with (- x_bar_star L * 0 + y_bar_star L * 1).
  change (dS_x_bar_hat_star L) with (x_bar_star L * 0 + y_bar_star L * 0).
  change (dS_y_bar_hat_star L) with (- x_bar_star L * 0 + y_bar_star L * 0).
  change (x_bar_star L) with (x_star c + px_star c * S - x_center_star sl).
  change (y_bar_star L) with (y_star c + py_star c * S - y_center_star sl).
  repeat split; ring.
Qed.

#[local] Existing Instance thin_lens.

(** One pass of the loop body with the stand-in collaborators, mode 0, on a
    slice that passes the test and has force scale [kappa]. *)
Lemma lens_iteration_mode_0 (N : Z) (table : Z -> Slice) (i_slice : Z)
    (q0 p0c kappa : R) (st : TrackState) :
  2 < num_macroparticles (table i_slice) ->
  Ksl (kick_locals (lens_el N table 0) i_slice q0 p0c
         (tl_coords st)) = kappa ->
  slice_iteration (lens_el N table 0) q0 p0c i_slice st =
  let c := tl_coords st in
  let pz := p_pzeta (tl_part st) in
  let S := 0.5 * (zeta_star c - zeta_center_star (table i_slice)) in
  let Fx := kappa * (x_star c + px_star c * S - x_center_star (table i_slice)) in
  let Fy := kappa * (y_star c + py_star c * S - y_center_star (table i_slice)) in
  let pz' :=
    pz + 0.5 * (Fx * (px_star c + 0.5 * Fx) + Fy * (py_star c + 0.5 * Fy)) in
  mkTrack (lens_update_pzeta (tl_part st) pz') (tl_record st)
    (mkCoords (x_star c - S * Fx) (px_star c + Fx)
       (y_star c - S * Fy) (py_star c + Fy) (zeta_star c) pz')
    pz (tl_log st ++ [Call_synchrobeam_kick i_slice S]).
Proof.
  intros Hnm HK.
  rewrite slice_iteration_kicked by exact Hnm.
  cbv zeta.
  set (c' := with_pzeta (tl_coords st) (LocalParticle_get_pzeta (tl_part st))).
  destruct (lens_forces (lens_el N table 0) i_slice q0 p0c c')
    as (HS & HFx & HFy & HFz).
  change (Ksl (kick_locals (lens_el N table 0) i_slice q0 p0c c'))
    with (Ksl (kick_locals (lens_el N table 0) i_slice q0 p0c (tl_coords st)))
    in HFx, HFy.
  rewrite HK in HFx, HFy.
  assert (Hc : k_coords
            (synchrobeam_kick (lens_el N table 0) (tl_part st) (tl_record st)
               i_slice q0 p0c c' (tl_log st)) =
          mkCoords
            (x_star c' - S_CP (kick_locals (lens_el N table 0) i_slice q0 p0c c') *
                         Fx_star (kick_locals (lens_el N table 0) i_slice q0 p0c c'))
            (px_star c' + Fx_star (kick_locals (lens_el N table 0) i_slice q0 p0c c'))
            (y_star c' - S_CP (kick_locals (lens_el N table 0) i_slice q0 p0c c') *
                         Fy_star (kick_locals (lens_el N table 0) i_slice q0 p0c c'))
            (py_star c' + Fy_star (kick_locals (lens_el N table 0) i_slice q0 p0c c'))
            (zeta_star c')
            (pzeta_star c' + Fz_star (kick_locals (lens_el N table 0) i_slice q0 p0c c') +
             0.5 * (Fx_star (kick_locals (lens_el N table 0) i_slice q0 p0c c') *
                    (px_star c' + 0.5 * Fx_star (kick_locals (lens_el N table 0) i_slice q0 p0c c')) +
                    Fy_star (kick_locals (lens_el N table 0) i_slice q0 p0c c') *
                    (py_star c' + 0.5 * Fy_star (kick_locals (lens_el N table 0) i_slice q0 p0c c')))))
    by reflexivity.
  rewrite Hc, HS, HFx, HFy, HFz.
  change (k_part (synchrobeam_kick (lens_el N table 0) (tl_part st) (tl_record st)
               i_slice q0 p0c c' (tl_log st))) with (tl_part st).
  change (k_record (synchrobeam_kick (lens_el N table 0) (tl_part st) (tl_record st)
               i_slice q0 p0c c' (tl_log st))) with (tl_record st).
  change (k_log (synchrobeam_kick (lens_el N table 0) (tl_part st) (tl_record st)
               i_slice q0 p0c c' (tl_log st)))
    with (tl_log st ++
          [Call_synchrobeam_kick i_slice
             (S_CP (kick_locals (lens_el N table 0) i_slice q0 p0c c'))]).
  rewrite HS.
  cbn [c' with_pzeta x_star px_star y_star py_star zeta_star pzeta_star
       lens_el slices_other_beam thin_lens LocalParticle_get_pzeta
       LocalParticle_get_delta LocalParticle_update_pzeta].
  f_equal.
  - f_equal. ring.
  - f_equal. ring.
Qed.

(** The same step on an explicit state, ready to be applied to numbers. *)
Lemma lens_step (N : Z) (table : Z -> Slice) (i_slice : Z)
    (q0 p0c kappa : R) (p : Particle) (record : option (list R))
    (x px y py zeta pz d : R) (log : list Call)
    (S Fx Fy x' px' y' py' pz' : R) :
  2 < num_macroparticles (table i_slice) ->
  Ksl (kick_locals (lens_el N table 0) i_slice q0 p0c
         (mkCoords x px y py zeta pz)) = kappa ->
  S = 0.5 * (zeta - zeta_center_star (table i_slice)) ->
  Fx = kappa * (x + px * S - x_center_star (table i_slice)) ->
  Fy = kappa * (y + py * S - y_center_star (table i_slice)) ->
  x' = x - S * Fx ->
  px' = px + Fx ->
  y' = y - S * Fy ->
  py' = py + Fy ->
  pz' = p_pzeta p + 0.5 * (Fx * (px + 0.5 * Fx) + Fy * (py + 0.5 * Fy)) ->
  slice_iteration (lens_el N table 0) q0 p0c i_slice
    (mkTrack p record (mkCoords x px y py zeta pz) d log) =
  mkTrack (lens_update_pzeta p pz') record
    (mkCoords x' px' y' py' zeta pz') (p_pzeta p)
    (log ++ [Call_synchrobeam_kick i_slice S]).
Proof.
  intros Hnm HK -> -> -> -> -> -> -> ->.
  now rewrite (lens_iteration_mode_0 N table i_slice q0 p0c kappa _ Hnm HK).
Qed.

(** Every slice of the two-slice table, in either order, has force scale 1
    on the test particle. *)
Lemma lens_two_slices_Ksl (table : Z -> Slice) (i_slice : Z) (c : Coords) :
  num_particles (table i_slice) = 1e19 ->
  Ksl (kick_locals (lens_el 2 table 0) i_slice 1 1.602176634 c) = 1.
Proof.
  intros H. cbn [kick_locals Ksl lens_el slices_other_beam other_beam_q0
                 thin_lens C_LIGHT QELEM].
  rewrite H. lra.
Qed.

(** The state the stand-in driver is in when it enters the slice loop with
    the test particle. *)
Lemma lens_boosted_state (N : Z) (table : Z -> Slice) (mode : Z) :
  boosted_state (lens_el N table mode) lens_part =
  mkTrack lens_part None (mkCoords 1 0 0 0 0 0) 0 [].
Proof. reflexivity. Qed.

(** The two-slice table in collision order: the particle meets slice 0 at
    [S = 1], is kicked by 1 and drifts back to [x = 0], where slice 1 at
    [S = 0] does not kick it. *)
Lemma lens_forward_run :
  after_slices (lens_el 2 lens_two_slices 0) lens_part =
  mkTrack (lens_update_pzeta lens_part 0.25) None
    (mkCoords 0 1 0 0 0 0.25) 0.25
    [Call_synchrobeam_kick 0 1; Call_synchrobeam_kick 1 0].
Proof.
  unfold after_slices. rewrite lens_boosted_state.
  change (Z.to_nat (num_slices_other_beam (lens_el 2 lens_two_slices 0)))
    with 2%nat.
  cbn [slice_loop Z.add Pos.add].
  rewrite (lens_step 2 lens_two_slices 0 _ _ 1 lens_part None
             1 0 0 0 0 0 0 [] 1 1 0 0 1 0 0 0.25);
    [ | cbn; lra | apply lens_two_slices_Ksl; reflexivity | cbn; lra .. ].
  rewrite (lens_step 2 lens_two_slices 1 _ _ 1 _ None
             0 1 0 0 0 0.25 _ _ 0 0 0 0 1 0 0 0.25);
    [ | cbn; lra | apply lens_two_slices_Ksl; reflexivity | cbn; lra .. ].
  reflexivity.
Qed.

(** The same table read backwards: the particle is first kicked by 1 at
    [S = 0] and keeps [x = 1], then meets the other slice at [S = 1] with
    offset 2 and is kicked by 2. *)
Lemma lens_reverse_run :
  after_slices (reverse_slices (lens_el 2 lens_two_slices 0)) lens_part =
  mkTrack (lens_update_pzeta lens_part 2.25) None
    (mkCoords (-1) 3 0 0 0 2.25) 0.25
    [Call_synchrobeam_kick 0 0; Call_synchrobeam_kick 1 1].
Proof.
  change (reverse_slices (lens_el 2 lens_two_slices 0))
    with (lens_el 2 (fun i => lens_two_slices (2 - 1 - i)) 0).
  unfold after_slices. rewrite lens_boosted_state.
  change (Z.to_nat (num_slices_other_beam
                      (lens_el 2 (fun i => lens_two_slices (2 - 1 - i)) 0)))
    with 2%nat.
  cbn [slice_loop Z.add Pos.add].
  rewrite (lens_step 2 _ 0 _ _ 1 lens_part None
             1 0 0 0 0 0 0 [] 0 1 0 1 1 0 0 0.25);
    [ | cbn; lra | apply lens_two_slices_Ksl; reflexivity | cbn; lra .. ].
  rewrite (lens_step 2 _ 1 _ _ 1 _ None
             1 1 0 0 0 0.25 _ _ 1 2 0 (-1) 3 0 0 2.25);
    [ | cbn; lra | apply lens_two_slices_Ksl; reflexivity | cbn; lra .. ].
  reflexivity.
Qed.

(** With the stand-in frame transforms the driver hands back the
    coordinates it has after the slice loop. *)
Lemma lens_track_coords (el : BeamBeamBiGaussian3DData) (part : Particle) :
  tl_coords (BeamBeamBiGaussian3D_track_local_particle el part) =
  tl_coords (after_slices el part).
Proof. reflexivity. Qed.

(** C8. Slice application is order-dependent.  With the stand-in
    collaborators, the test particle and the asymmetric two-slice table
    (centres at [zeta = -2] and [zeta = 0]), the driver ends with
    [pzeta = 0.25]; on the same table read backwards it ends with
    [pzeta = 2.25]. *)
Theorem slice_order_sensitivity :
  exists (el : BeamBeamBiGaussian3DData) (part : Particle),
    zeta_center_star (slices_other_beam el 0) <>
    zeta_center_star (slices_other_beam el 1) /\
    pzeta_star
      (tl_coords
         (@BeamBeamBiGaussian3D_track_local_particle thin_lens el part)) = 0.25 /\
    pzeta_star
      (tl_coords
         (@BeamBeamBiGaussian3D_track_local_particle thin_lens
            (reverse_slices el) part)) = 2.25 /\
    pzeta_star
      (tl_coords
         (@BeamBeamBiGaussian3D_track_local_particle thin_lens
            (reverse_slices el) part)) <>
    pzeta_star
      (tl_coords
         (@BeamBeamBiGaussian3D_track_local_particle thin_lens el part)).
Proof.
  exists (lens_el 2 lens_two_slices 0), lens_part.
  rewrite !lens_track_coords, lens_forward_run, lens_reverse_run.
  cbn [tl_coords pzeta_star lens_el slices_other_beam lens_two_slices
       lens_slice zeta_center_star Z.eqb].
  repeat split; lra.
Qed.

(** C3 at the test particle and a slice of intensity 0 in mode 2: the
    stand-in radiation routines radiate nothing at zero kick and at zero
    intensity, the averaged one is called, and the six coordinates stay
    put. *)
Lemma zero_force_limit_witness :
  num_particles (slices_other_beam (lens_el 1 lens_empty_slice 2) 0) = 0 /\
  (forall (p : Particle) (r : option (list R)) (dz : R),
      p_pzeta (fst (fst (lens_synrad p r 0 dz))) = p_pzeta p) /\
  (forall (p : Particle) (sigma_x sigma_y sigma_z : R),
      p_pzeta (fst (lens_synrad_avg p 0 sigma_x sigma_y sigma_z)) = p_pzeta p) /\
  pzeta_star (mkCoords 1 0 0 0 0 0) = p_pzeta lens_part /\
  k_coords
    (@synchrobeam_kick thin_lens (lens_el 1 lens_empty_slice 2) lens_part
       None 0 1 1.602176634 (mkCoords 1 0 0 0 0 0) []) =
  mkCoords 1 0 0 0 0 0.
Proof.
  assert (Hrad : forall (p : Particle) (r : option (list R)) (dz : R),
             p_pzeta (fst (fst (lens_synrad p r 0 dz))) = p_pzeta p).
  { intros p r dz. cbn [lens_synrad fst lens_update_pzeta p_pzeta].
    unfold lens_loss. lra. }
  assert (Havg : forall (p : Particle) (sigma_x sigma_y sigma_z : R),
             p_pzeta (fst (lens_synrad_avg p 0 sigma_x sigma_y sigma_z)) =
             p_pzeta p).
  { intros p sx sy sz. cbn [lens_synrad_avg fst lens_update_pzeta p_pzeta].
    unfold lens_loss. lra. }
  split; [reflexivity|]. split; [exact Hrad|]. split; [exact Havg|].
  split; [reflexivity|].
  destruct (@zero_force_limit thin_lens (lens_el 1 lens_empty_slice 2)
              lens_part None 0%Z 1 1.602176634 (mkCoords 1 0 0 0 0 0) []
              eq_refl Hrad Havg eq_refl)
    as (_ & _ & _ & Hc & _).
  exact Hc.
Defined.

(** C4 at a slice of two macroparticles. *)
Lemma sparse_slice_is_skipped_witness :
  num_macroparticles (slices_other_beam (lens_el 1 lens_sparse_slice 0) 0) <= 2 /\
  tl_log
    (@slice_iteration thin_lens (lens_el 1 lens_sparse_slice 0) 1 1.602176634 0
       (@mkTrack thin_lens lens_part None (mkCoords 1 0 0 0 0 0) 0 [])) = [] /\
  tl_part
    (@slice_iteration thin_lens (lens_el 1 lens_sparse_slice 0) 1 1.602176634 0
       (@mkTrack thin_lens lens_part None (mkCoords 1 0 0 0 0 0) 0 [])) = lens_part /\
  tl_coords
    (@slice_iteration thin_lens (lens_el 1 lens_sparse_slice 0) 1 1.602176634 0
       (@mkTrack thin_lens lens_part None (mkCoords 1 0 0 0 0 0) 0 [])) =
  mkCoords 1 0 0 0 0 0.
Proof.
  assert (H : num_macroparticles
                (slices_other_beam (lens_el 1 lens_sparse_slice 0) 0) <= 2)
    by (cbn; lra).
  split; [exact H|].
  destruct (@sparse_slice_is_skipped thin_lens (lens_el 1 lens_sparse_slice 0)
              1 1.602176634 0%Z
              (@mkTrack thin_lens lens_part None (mkCoords 1 0 0 0 0 0) 0 []) H)
    as (Hlog & Hpart & _ & _ & _ & _ & _ & _ & _ & Hsame).
  split; [exact Hlog|]. split; [exact Hpart | exact (Hsame eq_refl)].
Defined.






(** ** The further properties on explicit inputs *)

(** A particle on the axis of a centred slice sees no field with the
    stand-in solver and keeps its transverse coordinates. *)
Lemma kick_without_transverse_field_witness :
  Ex (@kick_locals thin_lens (lens_el 1 lens_sparse_slice 0) 0 1 1.602176634
        (mkCoords 0 0 0 0 0 0)) = 0 /\
  Ey (@kick_locals thin_lens (lens_el 1 lens_sparse_slice 0) 0 1 1.602176634
        (mkCoords 0 0 0 0 0 0)) = 0 /\
  px_star
    (k_coords
       (@synchrobeam_kick thin_lens (lens_el 1 lens_sparse_slice 0) lens_part
          None 0 1 1.602176634 (mkCoords 0 0 0 0 0 0) [])) = 0.
Proof.
  assert (HEx : Ex (@kick_locals thin_lens (lens_el 1 lens_sparse_slice 0) 0 1
                      1.602176634 (mkCoords 0 0 0 0 0 0)) = 0)
    by (cbn; lra).
  assert (HEy : Ey (@kick_locals thin_lens (lens_el 1 lens_sparse_slice 0) 0 1
                      1.602176634 (mkCoords 0 0 0 0 0 0)) = 0)
    by (cbn; lra).
  split; [exact HEx|]. split; [exact HEy|].
  destruct (@kick_without_transverse_field thin_lens
              (lens_el 1 lens_sparse_slice 0) 0%Z 1 1.602176634 lens_part None
              (mkCoords 0 0 0 0 0 0) [] HEx HEy) as (_ & Hpx & _).
  exact Hpx.
Defined.

(** The test particle sits at the longitudinal centre of slice 1 of the
    two-slice table. *)
Lemma kick_at_slice_centre_witness :
  zeta_star (mkCoords 1 0 0 0 0 0) =
  zeta_center_star (slices_other_beam (lens_el 2 lens_two_slices 0) 1) /\
  x_star
    (k_coords
       (@synchrobeam_kick thin_lens (lens_el 2 lens_two_slices 0) lens_part
          None 1 1 1.602176634 (mkCoords 1 0 0 0 0 0) [])) = 1.
Proof.
  split; [reflexivity|].
  destruct (@kick_at_slice_centre thin_lens (lens_el 2 lens_two_slices 0) 1%Z
              1 1.602176634 lens_part None (mkCoords 1 0 0 0 0 0) [] eq_refl)
    as (_ & _ & _ & Hx & _).
  exact Hx.
Defined.

(** The stand-in propagator returns the unit vector [(1, 0)]. *)
Lemma rotation_round_trip_witness :
  costheta
    (sigmas (@kick_locals thin_lens (lens_el 2 lens_two_slices 0) 0 1
               1.602176634 (mkCoords 1 0 0 0 0 0))) *
  costheta
    (sigmas (@kick_locals thin_lens (lens_el 2 lens_two_slices 0) 0 1
               1.602176634 (mkCoords 1 0 0 0 0 0))) +
  sintheta
    (sigmas (@kick_locals thin_lens (lens_el 2 lens_two_slices 0) 0 1
               1.602176634 (mkCoords 1 0 0 0 0 0))) *
  sintheta
    (sigmas (@kick_locals thin_lens (lens_el 2 lens_two_slices 0) 0 1
               1.602176634 (mkCoords 1 0 0 0 0 0))) = 1 /\
  Fx_star (@kick_locals thin_lens (lens_el 2 lens_two_slices 0) 0 1
             1.602176634 (mkCoords 1 0 0 0 0 0)) * 1 +
  Fy_star (@kick_locals thin_lens (lens_el 2 lens_two_slices 0) 0 1
             1.602176634 (mkCoords 1 0 0 0 0 0)) * 0 =
  Fx_hat_star (@kick_locals thin_lens (lens_el 2 lens_two_slices 0) 0 1
                 1.602176634 (mkCoords 1 0 0 0 0 0)).
Proof.
  assert (H : costheta
    (sigmas (@kick_locals thin_lens (lens_el 2 lens_two_slices 0) 0 1
               1.602176634 (mkCoords 1 0 0 0 0 0))) *
  costheta
    (sigmas (@kick_locals thin_lens (lens_el 2 lens_two_slices 0) 0 1
               1.602176634 (mkCoords 1 0 0 0 0 0))) +
  sintheta
    (sigmas (@kick_locals thin_lens (lens_el 2 lens_two_slices 0) 0 1
               1.602176634 (mkCoords 1 0 0 0 0 0))) *
  sintheta
    (sigmas (@kick_locals thin_lens (lens_el 2 lens_two_slices 0) 0 1
               1.602176634 (mkCoords 1 0 0 0 0 0))) = 1)
    by (cbn [kick_locals sigmas costheta sintheta thin_lens Sigmas_propagate
             lens_Sigmas_propagate]; lra).
  split; [exact H|].
  destruct (@rotation_round_trip thin_lens (lens_el 2 lens_two_slices 0) 0%Z
              1 1.602176634 (mkCoords 1 0 0 0 0 0) H) as (HFx & _).
  exact HFx.
Defined.

Lemma rotation_keeps_products_witness :
  costheta
    (sigmas (@kick_locals thin_lens (lens_el 2 lens_two_slices 0) 0 1
               1.602176634 (mkCoords 1 0 0 0 0 0))) *
  costheta
    (sigmas (@kick_locals thin_lens (lens_el 2 lens_two_slices 0) 0 1
               1.602176634 (mkCoords 1 0 0 0 0 0))) +
  sintheta
    (sigmas (@kick_locals thin_lens (lens_el 2 lens_two_slices 0) 0 1
               1.602176634 (mkCoords 1 0 0 0 0 0))) *
  sintheta
    (sigmas (@kick_locals thin_lens (lens_el 2 lens_two_slices 0) 0 1
               1.602176634 (mkCoords 1 0 0 0 0 0))) = 1 /\
  x_bar_hat_star (@kick_locals thin_lens (lens_el 2 lens_two_slices 0) 0 1
                    1.602176634 (mkCoords 1 0 0 0 0 0)) *
  x_bar_hat_star (@kick_locals thin_lens (lens_el 2 lens_two_slices 0) 0 1
                    1.602176634 (mkCoords 1 0 0 0 0 0)) +
  y_bar_hat_star (@kick_locals thin_lens (lens_el 2 lens_two_slices 0) 0 1
                    1.602176634 (mkCoords 1 0 0 0 0 0)) *
  y_bar_hat_star (@kick_locals thin_lens (lens_el 2 lens_two_slices 0) 0 1
                    1.602176634 (mkCoords 1 0 0 0 0 0)) =
  x_bar_star (@kick_locals thin_lens (lens_el 2 lens_two_slices 0) 0 1
                1.602176634 (mkCoords 1 0 0 0 0 0)) *
  x_bar_star (@kick_locals thin_lens (lens_el 2 lens_two_slices 0) 0 1
                1.602176634 (mkCoords 1 0 0 0 0 0)) +
  y_bar_star (@kick_locals thin_lens (lens_el 2 lens_two_slices 0) 0 1
                1.602176634 (mkCoords 1 0 0 0 0 0)) *
  y_bar_star (@kick_locals thin_lens (lens_el 2 lens_two_slices 0) 0 1
                1.602176634 (mkCoords 1 0 0 0 0 0)).
Proof.
  assert (H : costheta
    (sigmas (@kick_locals thin_lens (lens_el 2 lens_two_slices 0) 0 1
               1.602176634 (mkCoords 1 0 0 0 0 0))) *
  costheta
    (sigmas (@kick_locals thin_lens (lens_el 2 lens_two_slices 0) 0 1
               1.602176634 (mkCoords 1 0 0 0 0 0))) +
  sintheta
    (sigmas (@kick_locals thin_lens (lens_el 2 lens_two_slices 0) 0 1
               1.602176634 (mkCoords 1 0 0 0 0 0))) *
  sintheta
    (sigmas (@kick_locals thin_lens (lens_el 2 lens_two_slices 0) 0 1
               1.602176634 (mkCoords 1 0 0 0 0 0))) = 1)
    by (cbn [kick_locals sigmas costheta sintheta thin_lens Sigmas_propagate
             lens_Sigmas_propagate]; lra).
  split; [exact H|].
  destruct (@rotation_keeps_products thin_lens (lens_el 2 lens_two_slices 0)
              0%Z 1 1.602176634 (mkCoords 1 0 0 0 0 0)) as (_ & Hunit).
  destruct (Hunit H) as (_ & Hlen).
  exact Hlen.
Defined.

(** With the SI constants and the test particle's [p0c], the force scale of
    a slice of [1e19] particles is [1e19 * e / p0c]. *)
Lemma Ksl_in_lowest_terms_witness :
  @QELEM thin_lens <> 0 /\ @C_LIGHT thin_lens <> 0 /\ 1.602176634 <> 0 /\
  Ksl (@kick_locals thin_lens (lens_el 2 lens_two_slices 0) 0 1 1.602176634
         (mkCoords 1 0 0 0 0 0)) =
  num_particles (slices_other_beam (lens_el 2 lens_two_slices 0) 0) *
  @QELEM thin_lens * other_beam_q0 (lens_el 2 lens_two_slices 0) * 1 /
  1.602176634.
Proof.
  assert (He : @QELEM thin_lens <> 0) by (cbn; lra).
  assert (Hc : @C_LIGHT thin_lens <> 0) by (cbn; lra).
  assert (Hp : 1.602176634 <> 0) by lra.
  split; [exact He|]. split; [exact Hc|]. split; [exact Hp|].
  exact (@Ksl_in_lowest_terms thin_lens (lens_el 2 lens_two_slices 0) 0%Z 1
           1.602176634 (mkCoords 1 0 0 0 0 0) He Hc Hp).
Defined.

(** A one-slice table whose slice has two macroparticles. *)
Lemma table_of_sparse_slices_is_skipped_witness :
  (forall j : Z,
      (0 <= j < num_slices_other_beam (lens_el 1 lens_sparse_slice 0))%Z ->
      num_macroparticles
        (slices_other_beam (lens_el 1 lens_sparse_slice 0) j) <= 2) /\
  tl_log (@after_slices thin_lens (lens_el 1 lens_sparse_slice 0) lens_part) =
  [].
Proof.
  assert (H : forall j : Z,
      (0 <= j < num_slices_other_beam (lens_el 1 lens_sparse_slice 0))%Z ->
      num_macroparticles
        (slices_other_beam (lens_el 1 lens_sparse_slice 0) j) <= 2)
    by (intros j _; cbn; lra).
  split; [exact H|].
  destruct (@table_of_sparse_slices_is_skipped thin_lens
              (lens_el 1 lens_sparse_slice 0) lens_part H) as (Hlog & _).
  exact Hlog.
Defined.

(** The averaged mode leaves the record buffer alone. *)
Lemma record_is_written_in_mode_1_only_witness :
  do_beamstrahlung (lens_el 2 lens_two_slices 2) <> 1%Z /\
  tl_record (@after_slices thin_lens (lens_el 2 lens_two_slices 2) lens_part) =
  None.
Proof.
  assert (H : do_beamstrahlung (lens_el 2 lens_two_slices 2) <> 1%Z)
    by (cbn; lia).
  split; [exact H|].
  destruct (@record_is_written_in_mode_1_only thin_lens
              (lens_el 2 lens_two_slices 2) lens_part H) as (Hr & _).
  exact Hr.
Defined.

(** The flag value 3 on the two-slice table. *)
Lemma other_flag_values_mean_off_witness :
  do_beamstrahlung (lens_el 2 lens_two_slices 3) <> 1%Z /\
  do_beamstrahlung (lens_el 2 lens_two_slices 3) <> 2%Z /\
  @slice_loop thin_lens (lens_el 2 lens_two_slices 3) 1 1.602176634 2 0
    (@mkTrack thin_lens lens_part None (mkCoords 1 0 0 0 0 0) 0 []) =
  @slice_loop thin_lens (set_do_beamstrahlung (lens_el 2 lens_two_slices 3) 0)
    1 1.602176634 2 0
    (@mkTrack thin_lens lens_part None (mkCoords 1 0 0 0 0 0) 0 []).
Proof.
  assert (H1 : do_beamstrahlung (lens_el 2 lens_two_slices 3) <> 1%Z)
    by (cbn; lia).
  assert (H2 : do_beamstrahlung (lens_el 2 lens_two_slices 3) <> 2%Z)
    by (cbn; lia).
  split; [exact H1|]. split; [exact H2|].
  destruct (@other_flag_values_mean_off thin_lens
              (lens_el 2 lens_two_slices 3) 1 1.602176634 2%nat H1 H2 0%Z
              (@mkTrack thin_lens lens_part None (mkCoords 1 0 0 0 0 0) 0 []))
    as (Heq & _).
  exact Heq.
Defined.

(** Two runs over the two-slice table, one off and one in the stochastic
    mode, from states that differ in [pzeta] and in the particle. *)
Lemma transverse_motion_ignores_energy_state_witness :
  same_but_pzeta (mkCoords 1 0 0 0 0 0) (mkCoords 1 0 0 0 0 0.5) /\
  same_but_pzeta
    (tl_coords
       (@slice_loop thin_lens
          (set_do_beamstrahlung (lens_el 2 lens_two_slices 0) 0)
          1 1.602176634 2 0
          (@mkTrack thin_lens lens_part None (mkCoords 1 0 0 0 0 0) 0 [])))
    (tl_coords
       (@slice_loop thin_lens
          (set_do_beamstrahlung (lens_el 2 lens_two_slices 0) 1)
          1 1.602176634 2 0
          (@mkTrack thin_lens (lens_update_pzeta lens_part 0.5) None
             (mkCoords 1 0 0 0 0 0.5) 0 []))).
Proof.
  assert (H : same_but_pzeta (mkCoords 1 0 0 0 0 0) (mkCoords 1 0 0 0 0 0.5))
    by (repeat split).
  split; [exact H|].
  exact (@transverse_motion_ignores_energy_state thin_lens
           (lens_el 2 lens_two_slices 0) 0%Z 1%Z 1 1.602176634 2%nat 0%Z
           (@mkTrack thin_lens lens_part None (mkCoords 1 0 0 0 0 0) 0 [])
           (@mkTrack thin_lens (lens_update_pzeta lens_part 0.5) None
              (mkCoords 1 0 0 0 0 0.5) 0 [])
           H).
Defined.

(** The stand-in particle returns the [pzeta] last written. *)
Lemma local_pzeta_is_the_particle_pzeta_witness :
  (forall (p : Particle) (v : R), p_pzeta (lens_update_pzeta p v) = v) /\
  pzeta_star
    (tl_coords
       (@after_slices thin_lens (lens_el 2 lens_two_slices 2) lens_part)) =
  p_pzeta
    (tl_part (@after_slices thin_lens (lens_el 2 lens_two_slices 2) lens_part)).
Proof.
  assert (H : forall (p : Particle) (v : R), p_pzeta (lens_update_pzeta p v) = v)
    by reflexivity.
  split; [exact H|].
  destruct (@local_pzeta_is_the_particle_pzeta thin_lens
              (lens_el 2 lens_two_slices 2) lens_part H) as (_ & _ & Hs).
  exact Hs.
Defined.

Lemma radiation_kick_magnitude_witness :
  costheta
    (sigmas (@kick_locals thin_lens (lens_el 2 lens_two_slices 1) 0 1
               1.602176634 (mkCoords 1 0 0 0 0 0))) *
  costheta
    (sigmas (@kick_locals thin_lens (lens_el 2 lens_two_slices 1) 0 1
               1.602176634 (mkCoords 1 0 0 0 0 0))) +
  sintheta
    (sigmas (@kick_locals thin_lens (lens_el 2 lens_two_slices 1) 0 1
               1.602176634 (mkCoords 1 0 0 0 0 0))) *
  sintheta
    (sigmas (@kick_locals thin_lens (lens_el 2 lens_two_slices 1) 0 1
               1.602176634 (mkCoords 1 0 0 0 0 0))) = 1 /\
  hypot
    (Fx_star (@kick_locals thin_lens (lens_el 2 lens_two_slices 1) 0 1
                1.602176634 (mkCoords 1 0 0 0 0 0)))
    (Fy_star (@kick_locals thin_lens (lens_el 2 lens_two_slices 1) 0 1
                1.602176634 (mkCoords 1 0 0 0 0 0))) =
  Rabs (Ksl (@kick_locals thin_lens (lens_el 2 lens_two_slices 1) 0 1
               1.602176634 (mkCoords 1 0 0 0 0 0))) *
  hypot
    (Ex (@kick_locals thin_lens (lens_el 2 lens_two_slices 1) 0 1
           1.602176634 (mkCoords 1 0 0 0 0 0)))
    (Ey (@kick_locals thin_lens (lens_el 2 lens_two_slices 1) 0 1
           1.602176634 (mkCoords 1 0 0 0 0 0))).
Proof.
  assert (H : costheta
    (sigmas (@kick_locals thin_lens (lens_el 2 lens_two_slices 1) 0 1
               1.602176634 (mkCoords 1 0 0 0 0 0))) *
  costheta
    (sigmas (@kick_locals thin_lens (lens_el 2 lens_two_slices 1) 0 1
               1.602176634 (mkCoords 1 0 0 0 0 0))) +
  sintheta
    (sigmas (@kick_locals thin_lens (lens_el 2 lens_two_slices 1) 0 1
               1.602176634 (mkCoords 1 0 0 0 0 0))) *
  sintheta
    (sigmas (@kick_locals thin_lens (lens_el 2 lens_two_slices 1) 0 1
               1.602176634 (mkCoords 1 0 0 0 0 0))) = 1)
    by (cbn [kick_locals sigmas costheta sintheta thin_lens Sigmas_propagate
             lens_Sigmas_propagate]; lra).
  split; [exact H|].
  exact (@radiation_kick_magnitude thin_lens (lens_el 2 lens_two_slices 1)
           0%Z 1 1.602176634 (mkCoords 1 0 0 0 0 0) H).
Defined.

(** The test particle kicked by slice 0 of the two-slice table, then kicked
    again by the same slice as a particle of charge -1. *)
Lemma opposite_charge_undoes_the_kick_witness :
  do_beamstrahlung (lens_el 2 lens_two_slices 0) <> 1%Z /\
  do_beamstrahlung (lens_el 2 lens_two_slices 0) <> 2%Z /\
  k_coords
    (@synchrobeam_kick thin_lens (lens_el 2 lens_two_slices 0) lens_part None
       0 (- 1) 1.602176634
       (k_coords
          (@synchrobeam_kick thin_lens (lens_el 2 lens_two_slices 0)
             lens_part None 0 1 1.602176634 (mkCoords 1 0 0 0 0 0) []))
       []) =
  mkCoords 1 0 0 0 0 0.
Proof.
  assert (H1 : do_beamstrahlung (lens_el 2 lens_two_slices 0) <> 1%Z)
    by (cbn; lia).
  assert (H2 : do_beamstrahlung (lens_el 2 lens_two_slices 0) <> 2%Z)
    by (cbn; lia).
  split; [exact H1|]. split; [exact H2|].
  exact (@opposite_charge_undoes_the_kick thin_lens
           (lens_el 2 lens_two_slices 0) lens_part lens_part None None 0%Z
           1 1.602176634 (mkCoords 1 0 0 0 0 0) [] [] H1 H2).
Defined.

(** A one-slice table whose slice has no charge, beamstrahlung off. *)
Lemma chargeless_table_is_transparent_witness :
  (forall j : Z,
      (0 <= j < num_slices_other_beam (lens_el 1 lens_empty_slice 0))%Z ->
      num_particles (slices_other_beam (lens_el 1 lens_empty_slice 0) j) = 0) /\
  do_beamstrahlung (lens_el 1 lens_empty_slice 0) <> 1%Z /\
  do_beamstrahlung (lens_el 1 lens_empty_slice 0) <> 2%Z /\
  (forall (p : Particle) (v : R), p_pzeta (lens_update_pzeta p v) = v) /\
  tl_coords (@after_slices thin_lens (lens_el 1 lens_empty_slice 0) lens_part) =
  tl_coords (@boosted_state thin_lens (lens_el 1 lens_empty_slice 0) lens_part).
Proof.
  assert (H : forall j : Z,
      (0 <= j < num_slices_other_beam (lens_el 1 lens_empty_slice 0))%Z ->
      num_particles (slices_other_beam (lens_el 1 lens_empty_slice 0) j) = 0)
    by (intros j _; reflexivity).
  assert (H1 : do_beamstrahlung (lens_el 1 lens_empty_slice 0) <> 1%Z)
    by (cbn; lia).
  assert (H2 : do_beamstrahlung (lens_el 1 lens_empty_slice 0) <> 2%Z)
    by (cbn; lia).
  assert (Hs : forall (p : Particle) (v : R), p_pzeta (lens_update_pzeta p v) = v)
    by reflexivity.
  split; [exact H|]. split; [exact H1|]. split; [exact H2|].
  split; [exact Hs|].
  destruct (@chargeless_table_is_transparent thin_lens
              (lens_el 1 lens_empty_slice 0) lens_part H) as (_ & Hall).
  exact (Hall H1 H2 Hs).
Defined.

(** The stand-in driver on a one-slice table whose slice has two
    macroparticles: the test particle comes back as it went in. *)
Lemma driver_without_kicks_is_the_frame_round_trip_witness :
  (forall j : Z,
      (0 <= j < num_slices_other_beam (lens_el 1 lens_sparse_slice 0))%Z ->
      num_macroparticles
        (slices_other_beam (lens_el 1 lens_sparse_slice 0) j) <= 2) /\
  (forall (p : Particle) (v : R), p_pzeta (lens_update_pzeta p v) = v) /\
  tl_coords
    (@BeamBeamBiGaussian3D_track_local_particle thin_lens
       (lens_el 1 lens_sparse_slice 0) lens_part) =
  mkCoords 1 0 0 0 0 0.
Proof.
  assert (H : forall j : Z,
      (0 <= j < num_slices_other_beam (lens_el 1 lens_sparse_slice 0))%Z ->
      num_macroparticles
        (slices_other_beam (lens_el 1 lens_sparse_slice 0) j) <= 2)
    by (intros j _; cbn; lra).
  assert (Hs : forall (p : Particle) (v : R), p_pzeta (lens_update_pzeta p v) = v)
    by reflexivity.
  split; [exact H|]. split; [exact Hs|].
  destruct (@driver_without_kicks_is_the_frame_round_trip thin_lens
              (lens_el 1 lens_sparse_slice 0) lens_part H Hs) as (Hc & _).
  exact Hc.
Defined.
